(** * FitHub: the database triggers and the pages that call the hosted SDK

    A shallow embedding of
    - [supabase/migrations/20250414192917_humble_tooth.sql]: tables, the stored
      procedure [update_membership_status] and the three trigger functions;
    - [src/lib/schemas.ts]: [loginSchema] and [registrationSchema];
    - [src/pages/LoginPage.tsx], [RegisterPage.tsx], [ClientDashboard.tsx] and
      [AdminDashboard.tsx]: the handlers that talk to the SDK.

    Tables are lists of rows (SQL bags, in heap order), a nullable column is an
    [option], a UUID is its text, a date is its day number, DECIMAL is a
    rational. *)

From Stdlib Require Import List ZArith QArith String Ascii Bool Lia.
From Stdlib Require Import Sorting.Sorted Sorting.Permutation.
Import ListNotations.
Local Open Scope string_scope.
Local Open Scope Z_scope.

(* ===================================================================== *)
(** * The relational schema                                                *)
(* ===================================================================== *)
Module Sql.

Definition uuid := string.
Definition date := Z.
Definition timestamptz := Z.

(** CREATE TYPE user_role / membership_status / payment_status AS ENUM. *)
Inductive user_role := admin | client | trainer.
Inductive membership_status := active | expired | cancelled.
Inductive payment_status := pending | completed | failed.

Definition membership_status_eqb (a b : membership_status) : bool :=
  match a, b with
  | active, active | expired, expired | cancelled, cancelled => true
  | _, _ => false
  end.

Definition payment_status_eqb (a b : payment_status) : bool :=
  match a, b with
  | pending, pending | completed, completed | failed, failed => true
  | _, _ => false
  end.

(** ** Three-valued logic

    A comparison with NULL is unknown; WHERE and IF keep a row (take the branch)
    only when the condition is true. *)
Definition tri := option bool.

Definition sql_eq (a b : option uuid) : tri :=
  match a, b with
  | Some x, Some y => Some (String.eqb x y)
  | _, _ => None
  end.

Definition sql_and (a b : tri) : tri :=
  match a, b with
  | Some false, _ | _, Some false => Some false
  | Some true, Some true => Some true
  | _, _ => None
  end.

Definition is_true (t : tri) : bool :=
  match t with Some true => true | _ => false end.

(** ** Rows *)

Record users_row := {
  u_id : uuid;
  u_role : user_role;
  u_created_at : timestamptz;
  u_updated_at : timestamptz }.

Record profiles_row := {
  p_id : uuid;
  p_full_name : string;
  p_email : string;
  p_phone : option string;
  p_height : option Q;
  p_weight : option Q;
  p_date_of_birth : option date;
  p_emergency_contact : option string;
  p_medical_conditions : option string;
  p_created_at : timestamptz;
  p_updated_at : timestamptz }.

Record memberships_row := {
  m_id : uuid;
  m_name : string;
  m_description : option string;
  m_duration_months : Z;
  m_price : Q;
  m_created_at : timestamptz;
  m_updated_at : timestamptz }.

Record user_memberships_row := {
  um_id : uuid;
  um_user_id : option uuid;
  um_membership_id : option uuid;
  um_trainer_id : option uuid;
  um_start_date : date;
  um_end_date : date;
  um_status : membership_status;
  um_created_at : timestamptz;
  um_updated_at : timestamptz }.

Record workouts_row := {
  w_id : uuid;
  w_name : string;
  w_description : option string;
  w_difficulty_level : option Z;
  w_duration_minutes : Z;
  w_exercises : string;
  w_created_at : timestamptz;
  w_updated_at : timestamptz }.

Record user_workouts_row := {
  uw_id : uuid;
  uw_user_id : option uuid;
  uw_workout_id : option uuid;
  uw_trainer_id : option uuid;
  uw_assigned_date : date;
  uw_completed_date : option date;
  uw_notes : option string;
  uw_created_at : timestamptz;
  uw_updated_at : timestamptz }.

Record payments_row := {
  pay_id : uuid;
  pay_user_id : option uuid;
  pay_membership_id : option uuid;
  pay_amount : Q;
  pay_payment_date : date;
  pay_status : payment_status;
  pay_payment_method : string;
  pay_transaction_id : option string;
  pay_created_at : timestamptz;
  pay_updated_at : timestamptz }.

(** TG_OP of a row-level trigger. *)
Inductive tg_op := INSERT | UPDATE | DELETE.

Definition tg_op_text (op : tg_op) : string :=
  match op with INSERT => "INSERT" | UPDATE => "UPDATE" | DELETE => "DELETE" end.

(** Modelled from the spec: the [audit_logs] table is written by
    [log_user_changes] but the migration never creates it.  Its columns are the
    ones the trigger's INSERT names; [row_to_json] of a users row is kept as the
    row itself, and of a NULL record as NULL. *)
Record audit_logs_row := {
  al_table_name : string;
  al_record_id : option uuid;
  al_action : string;
  al_old_data : option users_row;
  al_new_data : option users_row;
  al_changed_by : option uuid }.

Record database := {
  users : list users_row;
  profiles : list profiles_row;
  memberships : list memberships_row;
  user_memberships : list user_memberships_row;
  workouts : list workouts_row;
  user_workouts : list user_workouts_row;
  payments : list payments_row;
  audit_logs : list audit_logs_row }.

Definition empty_database : database :=
  {| users := []; profiles := []; memberships := []; user_memberships := [];
     workouts := []; user_workouts := []; payments := []; audit_logs := [] |}.

Definition with_users (db : database) (t : list users_row) : database :=
  {| users := t; profiles := profiles db; memberships := memberships db;
     user_memberships := user_memberships db; workouts := workouts db;
     user_workouts := user_workouts db; payments := payments db;
     audit_logs := audit_logs db |}.

Definition with_user_memberships (db : database)
    (t : list user_memberships_row) : database :=
  {| users := users db; profiles := profiles db; memberships := memberships db;
     user_memberships := t; workouts := workouts db;
     user_workouts := user_workouts db; payments := payments db;
     audit_logs := audit_logs db |}.

Definition with_payments (db : database) (t : list payments_row) : database :=
  {| users := users db; profiles := profiles db; memberships := memberships db;
     user_memberships := user_memberships db; workouts := workouts db;
     user_workouts := user_workouts db; payments := t;
     audit_logs := audit_logs db |}.

Definition with_audit_logs (db : database) (t : list audit_logs_row) : database :=
  {| users := users db; profiles := profiles db; memberships := memberships db;
     user_memberships := user_memberships db; workouts := workouts db;
     user_workouts := user_workouts db; payments := payments db;
     audit_logs := t |}.

(** UPDATE user_memberships SET status = s, on one row: every other column
    keeps its value (no trigger refreshes [updated_at]). *)
Definition set_um_status (r : user_memberships_row) (s : membership_status)
    : user_memberships_row :=
  {| um_id := um_id r; um_user_id := um_user_id r;
     um_membership_id := um_membership_id r; um_trainer_id := um_trainer_id r;
     um_start_date := um_start_date r; um_end_date := um_end_date r;
     um_status := s;
     um_created_at := um_created_at r; um_updated_at := um_updated_at r |}.

(** A statement either completes or is aborted by an exception. *)
Inductive result (A : Type) :=
| Ok (a : A)
| Exception (message : string).
Arguments Ok {A} a.
Arguments Exception {A} message.

(** ** Stored procedure [update_membership_status]

    UPDATE user_memberships SET status = 'expired'
    WHERE end_date < CURRENT_DATE AND status = 'active'. *)
Definition update_membership_status_where (CURRENT_DATE : date)
    (r : user_memberships_row) : bool :=
  is_true (sql_and (Some (um_end_date r <? CURRENT_DATE))
                   (Some (membership_status_eqb (um_status r) active))).

Definition update_membership_status (CURRENT_DATE : date)
    (tbl : list user_memberships_row) : list user_memberships_row :=
  map (fun r => if update_membership_status_where CURRENT_DATE r
                then set_um_status r expired else r) tbl.

(** ** Trigger function [update_membership_status_on_payment]

    IF NEW.status = 'completed' THEN
      UPDATE user_memberships SET status = 'active'
      WHERE user_id = NEW.user_id AND membership_id = NEW.membership_id. *)
Definition payment_where (NEW : payments_row) (r : user_memberships_row) : bool :=
  is_true (sql_and (sql_eq (um_user_id r) (pay_user_id NEW))
                   (sql_eq (um_membership_id r) (pay_membership_id NEW))).

Definition update_membership_status_on_payment (NEW : payments_row)
    (tbl : list user_memberships_row) : list user_memberships_row :=
  if payment_status_eqb (pay_status NEW) completed
  then map (fun r => if payment_where NEW r then set_um_status r active else r) tbl
  else tbl.

(** ** Trigger function [check_trainer_availability]

    IF (SELECT COUNT( * ) FROM user_memberships
        WHERE trainer_id = NEW.trainer_id AND status = 'active') >= 10
    THEN RAISE EXCEPTION ...; END IF; RETURN NEW. *)
Definition trainer_where (tid : option uuid) (r : user_memberships_row) : bool :=
  is_true (sql_and (sql_eq (um_trainer_id r) tid)
                   (Some (membership_status_eqb (um_status r) active))).

Definition count_active (tid : option uuid) (tbl : list user_memberships_row) : Z :=
  Z.of_nat (List.length (filter (trainer_where tid) tbl)).

Definition check_trainer_availability (NEW : user_memberships_row)
    (tbl : list user_memberships_row) : result user_memberships_row :=
  if 10 <=? count_active (um_trainer_id NEW) tbl
  then Exception "Trainer has reached maximum client capacity"
  else Ok NEW.

(** ** Trigger function [log_user_changes]

    OLD is NULL in an INSERT trigger and NEW is NULL in a DELETE trigger; a
    field of a NULL record is NULL. *)
Definition log_user_changes (TG_TABLE_NAME : string) (TG_OP : tg_op)
    (OLD NEW : option users_row) (auth_uid : option uuid)
    (audit : list audit_logs_row) : list audit_logs_row :=
  audit ++ [ {| al_table_name := TG_TABLE_NAME;
                al_record_id := option_map u_id NEW;
                al_action := tg_op_text TG_OP;
                al_old_data := OLD;
                al_new_data := NEW;
                al_changed_by := auth_uid |} ].

(** ** Statements and the triggers bound to them *)

(** INSERT INTO user_memberships VALUES (NEW), under
    [trainer_availability_trigger] (BEFORE INSERT, FOR EACH ROW).  The PRIMARY
    KEY and REFERENCES constraints of the table are not part of this model:
    they refuse further rows and let none in that the trigger refuses. *)
Definition insert_user_membership (NEW : user_memberships_row) (db : database)
    : result database :=
  match check_trainer_availability NEW (user_memberships db) with
  | Exception msg => Exception msg
  | Ok row => Ok (with_user_memberships db (user_memberships db ++ [row]))
  end.

(** INSERT INTO payments VALUES (NEW): the table has no insert trigger. *)
Definition insert_payment (NEW : payments_row) (db : database) : database :=
  with_payments db (payments db ++ [NEW]).

(** UPDATE payments SET ... WHERE ..., under [payment_status_trigger] (AFTER
    UPDATE, FOR EACH ROW): the rows are rewritten, then the trigger function
    runs once for every rewritten row, with that row as NEW. *)
Definition update_payments (where_ : payments_row -> bool)
    (set_ : payments_row -> payments_row) (db : database) : database :=
  let fired := map set_ (filter where_ (payments db)) in
  let db1 := with_payments db
               (map (fun r => if where_ r then set_ r else r) (payments db)) in
  with_user_memberships db1
    (fold_left (fun tbl NEW => update_membership_status_on_payment NEW tbl)
               fired (user_memberships db1)).

(** CALL update_membership_status(). *)
Definition call_update_membership_status (CURRENT_DATE : date) (db : database)
    : database :=
  with_user_memberships db
    (update_membership_status CURRENT_DATE (user_memberships db)).

(** INSERT / UPDATE / DELETE on users, under [user_changes_trigger] (AFTER
    INSERT OR UPDATE OR DELETE, FOR EACH ROW). *)
Definition insert_user (auth_uid : option uuid) (NEW : users_row) (db : database)
    : database :=
  let db1 := with_users db (users db ++ [NEW]) in
  with_audit_logs db1
    (log_user_changes "users" INSERT None (Some NEW) auth_uid (audit_logs db1)).


Definition delete_users (auth_uid : option uuid) (where_ : users_row -> bool)
    (db : database) : database :=
  let hit := filter where_ (users db) in
  let db1 := with_users db (filter (fun r => negb (where_ r)) (users db)) in
  with_audit_logs db1
    (fold_left (fun audit OLD =>
                  log_user_changes "users" DELETE (Some OLD) None auth_uid audit)
               hit (audit_logs db1)).

(** ** Sessions: sequences of statements from the empty database *)
Inductive statement :=
| InsertUserMembership (NEW : user_memberships_row)
| InsertPayment (NEW : payments_row)
| UpdatePayments (where_ : payments_row -> bool) (set_ : payments_row -> payments_row)
| CallUpdateMembershipStatus (CURRENT_DATE : date).

(** An aborted statement leaves the database as it was. *)
Definition exec (db : database) (s : statement) : database :=
  match s with
  | InsertUserMembership NEW =>
      match insert_user_membership NEW db with
      | Ok db' => db'
      | Exception _ => db
      end
  | InsertPayment NEW => insert_payment NEW db
  | UpdatePayments w s => update_payments w s db
  | CallUpdateMembershipStatus d => call_update_membership_status d db
  end.

Definition run (ss : list statement) : database :=
  fold_left exec ss empty_database.

Definition reachable (db : database) : Prop := exists ss, run ss = db.

End Sql.

(* ===================================================================== *)
(** * JavaScript values, as far as the pages use them                      *)
(* ===================================================================== *)
Module Js.

(** A number is a rational or NaN (rounding is not modelled); a [Date] holds its
    time value, [None] standing for Invalid Date. *)
Inductive number := Fin (q : Q) | NaN.

#[warnings="-register-all"]
Inductive value :=
| Undefined
| Null
| Bool (b : bool)
| Num (n : number)
| Str (s : string)
| Date (time : option Z)
| Arr (items : list value)
| Obj (props : list (string * value)).

(** What a [throw] carries: a TypeError of the runtime, the ZodError of a failed
    [parse], or the error object of an SDK response. *)
Inductive exn :=
| TypeError (message : string)
| ZodError (issues : list (string * string))
| SdkError (message : string).

Definition zero : value := Num (Fin 0).

(** ToBoolean. *)
Definition truthy (v : value) : bool :=
  match v with
  | Undefined | Null => false
  | Bool b => b
  | Num (Fin q) => negb (Qeq_bool q 0)
  | Num NaN => false
  | Str s => negb (String.eqb s "")
  | Date _ | Arr _ | Obj _ => true
  end.

(** [a || b]. *)
Definition or (a b : value) : value := if truthy a then a else b.

(** [s || d] on strings. *)
Definition or_str (s d : string) : string := if String.eqb s "" then d else s.

(** [key in object]. *)
Fixpoint has_key (props : list (string * value)) (name : string) : bool :=
  match props with
  | [] => false
  | (k, _) :: rest => String.eqb k name || has_key rest name
  end.

(** A text is held as its UTF-8 bytes; JavaScript measures it in UTF-16 code
    units.  A byte that starts a sequence of 1, 2 or 3 bytes stands for one
    unit, a byte that starts a sequence of 4 bytes for a surrogate pair, a
    continuation byte for none. *)
Definition utf16_units (c : ascii) : nat :=
  let n := nat_of_ascii c in
  if (n <? 128)%nat then 1%nat
  else if (n <? 192)%nat then 0%nat
  else if (n <? 240)%nat then 1%nat
  else 2%nat.

(** [s.length]. *)
Fixpoint utf16_length (s : string) : nat :=
  match s with
  | EmptyString => 0%nat
  | String c rest => (utf16_units c + utf16_length rest)%nat
  end.

Fixpoint lookup (props : list (string * value)) (name : string) : value :=
  match props with
  | [] => Undefined
  | (k, v) :: rest => if String.eqb k name then v else lookup rest name
  end.

Definition is_digit (c : ascii) : bool :=
  ((48 <=? nat_of_ascii c) && (nat_of_ascii c <=? 57))%nat.

Fixpoint digits_value (s : string) (acc : nat) : option nat :=
  match s with
  | EmptyString => Some acc
  | String c rest =>
      if is_digit c
      then digits_value rest (10 * acc + (nat_of_ascii c - 48))%nat
      else None
  end.

(** A property name that is a canonical array index. *)
Definition array_index (name : string) : option nat :=
  match name with
  | EmptyString => None
  | String "0"%char EmptyString => Some 0%nat
  | String "0"%char _ => None
  | _ => digits_value name 0
  end.

(** [v.name] for a data property: reading through [undefined] or [null] throws;
    an array has [length] and its indices, a string has [length]; any other
    name is [undefined] (function-valued prototype members are not values of
    this model). *)
Definition get (v : value) (name : string) : exn + value :=
  match v with
  | Undefined =>
      inl (TypeError ("Cannot read properties of undefined (reading '" ++ name ++ "')"))
  | Null =>
      inl (TypeError ("Cannot read properties of null (reading '" ++ name ++ "')"))
  | Obj props => inr (lookup props name)
  | Arr items =>
      if String.eqb name "length"
      then inr (Num (Fin (inject_Z (Z.of_nat (List.length items)))))
      else match array_index name with
           | Some i => inr (nth i items Undefined)
           | None => inr Undefined
           end
  | Str s =>
      if String.eqb name "length"
      then inr (Num (Fin (inject_Z (Z.of_nat (utf16_length s)))))
      else inr Undefined
  | Bool _ | Num _ | Date _ => inr Undefined
  end.

(** [v?.name]. *)
Definition get_opt (v : value) (name : string) : value :=
  match v with
  | Undefined | Null => Undefined
  | _ => match get v name with inr x => x | inl _ => Undefined end
  end.

(** [e.message] of a caught error.  The message of a ZodError is the JSON text
    of its issues; it is rendered here as the bracketed issue messages, never
    empty, as the original. *)
Definition message (e : exn) : string :=
  match e with
  | TypeError m => m
  | SdkError m => m
  | ZodError issues => "[" ++ String.concat "," (map snd issues) ++ "]"
  end.

(** [array.map(f)] with a callback that may throw. *)
Fixpoint map_throwing {A B} (f : A -> exn + B) (l : list A) : exn + list B :=
  match l with
  | [] => inr []
  | a :: rest =>
      match f a with
      | inl e => inl e
      | inr b => match map_throwing f rest with
                 | inl e => inl e
                 | inr bs => inr (b :: bs)
                 end
      end
  end.

(** Values as JSON decodes them. *)
Class ToJs (A : Type) := to_js : A -> value.

#[global] Instance string_to_js : ToJs string := Str.
#[global] Instance Q_to_js : ToJs Q := fun q => Num (Fin q).
#[global] Instance option_to_js {A} `{ToJs A} : ToJs (option A) :=
  fun o => match o with Some a => to_js a | None => Null end.
#[global] Instance list_to_js {A} `{ToJs A} : ToJs (list A) :=
  fun l => Arr (map to_js l).

(** Built-ins whose text algorithms are outside the repository. *)
Class Runtime := {
  (** the regular expression behind zod's [.email()] *)
  email_regex_test : string -> bool;
  parseFloat : string -> number;
  (** the time value of [new Date(s)] *)
  Date_parse : string -> option Z }.

(** ** Effects of an async handler

    A run yields the effects it performed, in order, and either an uncaught
    exception or a value. *)
Section Eff.
Context {E : Type}.

Definition M (A : Type) : Type := (list E * (exn + A))%type.

Definition ret {A} (a : A) : M A := ([], inr a).
Definition throw {A} (e : exn) : M A := ([], inl e).
Definition emit (e : E) : M unit := ([e], inr tt).
Definition lift {A} (r : exn + A) : M A := ([], r).

Definition bind {A B} (m : M A) (k : A -> M B) : M B :=
  match m with
  | (l1, inl e) => (l1, inl e)
  | (l1, inr a) => let (l2, r) := k a in ((l1 ++ l2)%list, r)
  end.

(** try { body } catch (error) { handler } finally { fin } *)
Definition try_catch_finally {A} (body : M A) (handler : exn -> M A)
    (fin : M unit) : M A :=
  let caught :=
    match body with
    | (l1, inl e) => let (l2, r) := handler e in ((l1 ++ l2)%list, r)
    | (l1, inr a) => (l1, inr a)
    end in
  match fin with
  | (l3, inl e) => ((fst caught ++ l3)%list, inl e)
  | (l3, inr _) => ((fst caught ++ l3)%list, snd caught)
  end.

Definition effects {A} (m : M A) : list E := fst m.
End Eff.
Arguments M E A : clear implicits.

End Js.

Declare Scope eff_scope.
Delimit Scope eff_scope with eff.
Notation "x <- m ;; k" := (Js.bind m (fun x => k))
  (at level 61, m at next level, right associativity) : eff_scope.
Notation "m ;; k" := (Js.bind m (fun _ => k))
  (at level 61, right associativity) : eff_scope.

(* ===================================================================== *)
(** * zod schemas ([src/lib/schemas.ts])                                   *)
(* ===================================================================== *)
Module Zod.
Import Js.

Inductive string_check :=
| email (message : string)
| min (n : nat) (message : string).

Inductive number_check :=
| positive (message : string).

Inductive schema :=
| z_string (checks : list string_check)
| z_number (checks : list number_check)
| z_date
| z_optional (inner : schema).

(** [z.object({...})]: the shape, in declaration order. *)
Definition z_object := list (string * schema).

Definition parsed_type (v : value) : string :=
  match v with
  | Undefined => "undefined"
  | Null => "null"
  | Bool _ => "boolean"
  | Num (Fin _) => "number"
  | Num NaN => "nan"
  | Str _ => "string"
  | Date _ => "date"
  | Arr _ => "array"
  | Obj _ => "object"
  end.

Definition invalid_type (expected : string) (v : value) : string :=
  match v with
  | Undefined => "Required"
  | _ => "Expected " ++ expected ++ ", received " ++ parsed_type v
  end.

Section Checks.
Context `{Runtime}.

Definition string_issue (s : string) (c : string_check) : list string :=
  match c with
  | email msg => if email_regex_test s then [] else [msg]
  | min n msg => if (n <=? utf16_length s)%nat then [] else [msg]
  end.

Definition number_issue (q : Q) (c : number_check) : list string :=
  match c with
  | positive msg => if Qle_bool q 0 then [msg] else []
  end.

(** The issues a value raises against a schema; none means it is accepted. *)
Fixpoint issues_of (s : schema) (v : value) : list string :=
  match s with
  | z_string checks =>
      match v with
      | Str str => flat_map (string_issue str) checks
      | _ => [invalid_type "string" v]
      end
  | z_number checks =>
      match v with
      | Num (Fin q) => flat_map (number_issue q) checks
      | _ => [invalid_type "number" v]
      end
  | z_date =>
      match v with
      | Date (Some _) => []
      | Date None => ["Invalid date"]
      | _ => [invalid_type "date" v]
      end
  | z_optional inner =>
      match v with
      | Undefined => []
      | _ => issues_of inner v
      end
  end.

Definition object_issues (shape : z_object) (props : list (string * value))
    : list (string * string) :=
  flat_map (fun '(key, s) =>
              map (fun msg => (key, msg)) (issues_of s (lookup props key)))
           shape.

(** The properties of the parsed object: a key of the shape is kept when the
    input has it, be it with the value undefined; a key the input lacks is
    left out, and so is every key outside the shape. *)
Definition output_of (shape : z_object) (props : list (string * value))
    : list (string * value) :=
  flat_map (fun '(key, _) =>
              if has_key props key then [(key, lookup props key)] else [])
           shape.

(** [schema.parse(input)]: the properties of the output object, or a thrown
    ZodError. *)
Definition parse (shape : z_object) (input : value)
    : exn + list (string * value) :=
  match input with
  | Obj props =>
      match object_issues shape props with
      | [] => inr (output_of shape props)
      | issues => inl (ZodError issues)
      end
  | _ => inl (ZodError [("", invalid_type "object" input)])
  end.

Definition accepts (shape : z_object) (input : value) : Prop :=
  exists output, parse shape input = inr output.
End Checks.

Definition loginSchema : z_object :=
  [ ("email", z_string [email "Invalid email address"]);
    ("password", z_string [min 8 "Password must be at least 8 characters"]) ].

Definition registrationSchema : z_object :=
  [ ("email", z_string [email "Invalid email address"]);
    ("password", z_string [min 8 "Password must be at least 8 characters"]);
    ("fullName", z_string [min 2 "Full name must be at least 2 characters"]);
    ("phone", z_optional (z_string []));
    ("height", z_optional (z_number [positive "Height must be positive"]));
    ("weight", z_optional (z_number [positive "Weight must be positive"]));
    ("dateOfBirth", z_optional z_date);
    ("emergencyContact", z_optional (z_string []));
    ("medicalConditions", z_optional (z_string [])) ].

Definition profileUpdateSchema : z_object :=
  [ ("fullName", z_string [min 2 "Full name must be at least 2 characters"]);
    ("phone", z_optional (z_string []));
    ("height", z_optional (z_number [positive "Height must be positive"]));
    ("weight", z_optional (z_number [positive "Weight must be positive"]));
    ("emergencyContact", z_optional (z_string []));
    ("medicalConditions", z_optional (z_string [])) ].

End Zod.

(* ===================================================================== *)
(** * The hosted SDK, seen from the pages                                  *)
(* ===================================================================== *)
Module Supabase.
Import Js.

Record User := { id : Sql.uuid }.

(** { data: { user, session }, error } of [supabase.auth.*]; an error is kept
    as its message. *)
Record AuthResponse := {
  auth_user : option User;
  auth_error : option string }.

(** { data, error, count } of a query built with [supabase.from(...)]. *)
Record PostgrestResponse (T : Type) := {
  data : option T;
  error : option string;
  count : option nat }.
Arguments data {T} _.
Arguments error {T} _.
Arguments count {T} _.

(** The query builder, as the requests appear in a trace. *)
Inductive modifier :=
| eq (column : string) (v : value)
| order (column : string) (ascending : bool)
| limit (n : nat)
| single
| count_exact.

Inductive request :=
| auth_signInWithPassword (credentials : value)
| auth_signUp (credentials : value)
| auth_getUser
| from_select (table columns : string) (modifiers : list modifier)
| from_insert (table : string) (rows : list value).

(** What a handler does to the world, [U] being the state setters of its page. *)
Inductive effect (U : Type) :=
| PreventDefault
| Request (r : request)
| SwalFire (icon title text : string)
| Navigate (path : string)
| ConsoleLog (label : string)
| ConsoleError (label : string) (e : exn)
| SetState (u : U).
Arguments PreventDefault {U}.
Arguments Request {U} r.
Arguments SwalFire {U} icon title text.
Arguments Navigate {U} path.
Arguments ConsoleLog {U} label.
Arguments ConsoleError {U} label e.
Arguments SetState {U} u.

(** [await] of a request: it is sent once and answered. *)
Definition call {U T} (r : request) (answer : T) : M (effect U) T :=
  ([Request r], inr answer).

Definition requests {U} (trace : list (effect U)) : list request :=
  flat_map (fun e => match e with Request r => [r] | _ => [] end) trace.

Definition dialogs {U} (trace : list (effect U)) : list (string * string * string) :=
  flat_map (fun e => match e with
                     | SwalFire icon title text => [(icon, title, text)]
                     | _ => []
                     end) trace.

(** Rows as the pages select them. *)
Record role_row := { role : Sql.user_role }.

Record UserProfile := { full_name : string; email : string }.

Record Membership := {
  name : string;
  end_date : Sql.date;
  trainer_name : option string }.

Record workouts_embed := { w_name : string; w_exercises : string }.

Record user_workouts_sel := {
  workouts : option workouts_embed;
  assigned_date : Sql.date;
  completed_date : option Sql.date }.

Record id_row := { row_id : Sql.uuid }.
Record amount_row := { amount : Q }.

Record profiles_embed := { pe_full_name : string; pe_email : string }.

Record active_memberships_sel := {
  am_user_id : Sql.uuid;
  am_profiles : option profiles_embed;
  am_membership_name : string;
  am_trainer_name : option string;
  am_end_date : Sql.date }.

#[global] Instance id_row_to_js : ToJs id_row :=
  fun r => Obj [("id", Str (row_id r))].

(** The answers of the hosted service, one field for each request a page makes. *)
Record Client := {
  signInWithPassword : value -> AuthResponse;
  signUp : value -> AuthResponse;
  getUser : AuthResponse;
  users_role : Sql.uuid -> PostgrestResponse role_row;
  users_insert : value -> PostgrestResponse unit;
  profiles_insert : value -> PostgrestResponse unit;
  profiles_single : Sql.uuid -> PostgrestResponse UserProfile;
  active_memberships_single : Sql.uuid -> PostgrestResponse Membership;
  user_workouts_recent : Sql.uuid -> PostgrestResponse (list user_workouts_sel);
  profiles_ids : PostgrestResponse (list id_row);
  user_memberships_active_ids : PostgrestResponse (list id_row);
  payments_completed_amounts : PostgrestResponse (list amount_row);
  upcoming_renewals_ids : PostgrestResponse (list id_row);
  active_memberships_recent : PostgrestResponse (list active_memberships_sel) }.

End Supabase.

(* ===================================================================== *)
(** * [src/pages/LoginPage.tsx]                                            *)
(* ===================================================================== *)
Module LoginPage.
Import Js Supabase.
Local Open Scope eff_scope.

Record FormData := { email : string; password : string }.

Inductive update := setLoading (b : bool).

Definition form_value (formData : FormData) : value :=
  Obj [("email", Str (email formData)); ("password", Str (password formData))].

Section Handler.
Context `{Runtime} (supabase : Client).

Definition handleSubmit (formData : FormData) : M (effect update) unit :=
  emit PreventDefault ;;
  emit (SetState (setLoading true)) ;;
  try_catch_finally
    (validatedData <- lift (Zod.parse Zod.loginSchema (form_value formData)) ;;
     response <- call (auth_signInWithPassword (Obj validatedData))
                      (signInWithPassword supabase (Obj validatedData)) ;;
     match auth_error response with
     | Some error => throw (SdkError error)
     | None =>
         (* data.user.id *)
         user <- lift (match auth_user response with
                       | Some u => inr u
                       | None => inl (TypeError
                           "Cannot read properties of null (reading 'id')")
                       end) ;;
         userData <- call (from_select "users" "role"
                             [eq "id" (Str (id user)); single])
                          (users_role supabase (id user)) ;;
         emit (ConsoleLog "Logged in user ID:") ;;
         emit (ConsoleLog "role is ") ;;
         emit (ConsoleLog "Full userData:") ;;
         match data userData with
         | Some {| role := Sql.admin |} => emit (Navigate "/admin")
         | _ => emit (Navigate "/dashboard")
         end
     end)
    (fun error =>
       emit (SwalFire "error" "Login Failed"
               (or_str (message error)
                       "Please check your credentials and try again.")))
    (emit (SetState (setLoading false))).
End Handler.

End LoginPage.

(* ===================================================================== *)
(** * [src/pages/RegisterPage.tsx]                                         *)
(* ===================================================================== *)
Module RegisterPage.
Import Js Supabase.
Local Open Scope eff_scope.

Record FormData := {
  email : string;
  password : string;
  fullName : string;
  phone : string;
  height : string;
  weight : string;
  dateOfBirth : string;
  emergencyContact : string;
  medicalConditions : string }.

Inductive update := setLoading (b : bool).

Section Handler.
Context `{Runtime} (supabase : Client).

(** { ...formData, height: formData.height ? parseFloat(formData.height)
    : undefined, weight: ..., dateOfBirth: formData.dateOfBirth
    ? new Date(formData.dateOfBirth) : undefined } *)
Definition form_value (formData : FormData) : value :=
  Obj [ ("email", Str (email formData));
        ("password", Str (password formData));
        ("fullName", Str (fullName formData));
        ("phone", Str (phone formData));
        ("height", if truthy (Str (height formData))
                   then Num (parseFloat (height formData)) else Undefined);
        ("weight", if truthy (Str (weight formData))
                   then Num (parseFloat (weight formData)) else Undefined);
        ("dateOfBirth", if truthy (Str (dateOfBirth formData))
                        then Date (Date_parse (dateOfBirth formData))
                        else Undefined);
        ("emergencyContact", Str (emergencyContact formData));
        ("medicalConditions", Str (medicalConditions formData)) ].

(** authData.user?.id *)
Definition user_id (response : AuthResponse) : value :=
  match auth_user response with
  | Some u => Str (id u)
  | None => Undefined
  end.

(** { email: validatedData.email, password: validatedData.password } *)
Definition credentials (validatedData : list (string * value)) : value :=
  Obj [ ("email", lookup validatedData "email");
        ("password", lookup validatedData "password") ].

(** { id: authData.user?.id, role: 'client' } *)
Definition users_row (response : AuthResponse) : value :=
  Obj [("id", user_id response); ("role", Str "client")].

Definition profiles_row (response : AuthResponse)
    (validatedData : list (string * value)) : value :=
  Obj [ ("id", user_id response);
        ("full_name", lookup validatedData "fullName");
        ("email", lookup validatedData "email");
        ("phone", lookup validatedData "phone");
        ("height", lookup validatedData "height");
        ("weight", lookup validatedData "weight");
        ("date_of_birth", lookup validatedData "dateOfBirth");
        ("emergency_contact", lookup validatedData "emergencyContact");
        ("medical_conditions", lookup validatedData "medicalConditions") ].

Definition handleSubmit (formData : FormData) : M (effect update) unit :=
  emit PreventDefault ;;
  emit (SetState (setLoading true)) ;;
  try_catch_finally
    (validatedData <- lift (Zod.parse Zod.registrationSchema
                                      (form_value formData)) ;;
     response <- call (auth_signUp (credentials validatedData))
                      (signUp supabase (credentials validatedData)) ;;
     emit (ConsoleLog "User ID:") ;;
     match auth_error response with
     | Some authError => throw (SdkError authError)
     | None =>
         userRegister <- call (from_insert "users" [users_row response])
                              (users_insert supabase (users_row response)) ;;
         inserted <- call (from_insert "profiles"
                             [profiles_row response validatedData])
                          (profiles_insert supabase
                             (profiles_row response validatedData)) ;;
         match error inserted with
         | Some profileError => throw (SdkError profileError)
         | None =>
             emit (SwalFire "success" "Registration Successful"
                     "Welcome to FitHub! You can now log in.") ;;
             emit (Navigate "/login")
         end
     end)
    (fun error =>
       emit (SwalFire "error" "Registration Failed"
               (or_str (message error)
                       "Please check your information and try again.")))
    (emit (SetState (setLoading false))).
End Handler.

End RegisterPage.

(* ===================================================================== *)
(** * [src/pages/ClientDashboard.tsx]                                      *)
(* ===================================================================== *)
Module ClientDashboard.
Import Js Supabase.
Local Open Scope eff_scope.

Record Workout := {
  wk_name : string;
  wk_assigned_date : Sql.date;
  wk_completed_date : option Sql.date;
  wk_exercises : string }.

Inductive update :=
| setProfile (p : option UserProfile)
| setMembership (m : option Membership)
| setWorkouts (ws : list Workout)
| setLoading (b : bool).

Record state := {
  profile : option UserProfile;
  membership : option Membership;
  workouts : list Workout;
  loading : bool }.

(** The [useState] initial values. *)
Definition initial_state : state :=
  {| profile := None; membership := None; workouts := []; loading := true |}.

Definition apply_update (s : state) (u : update) : state :=
  match u with
  | setProfile p =>
      {| profile := p; membership := membership s; workouts := workouts s;
         loading := loading s |}
  | setMembership m =>
      {| profile := profile s; membership := m; workouts := workouts s;
         loading := loading s |}
  | setWorkouts ws =>
      {| profile := profile s; membership := membership s; workouts := ws;
         loading := loading s |}
  | setLoading b =>
      {| profile := profile s; membership := membership s;
         workouts := workouts s; loading := b |}
  end.

Definition apply_effect (s : state) (e : effect update) : state :=
  match e with SetState u => apply_update s u | _ => s end.

(** The callback of [workoutData?.map]: [w.workouts.name] throws when the
    embedded workout is null. *)
Definition to_workout (w : user_workouts_sel) : exn + Workout :=
  match Supabase.workouts w with
  | None => inl (TypeError "Cannot read properties of null (reading 'name')")
  | Some e => inr {| wk_name := w_name e; wk_exercises := w_exercises e;
                     wk_assigned_date := assigned_date w;
                     wk_completed_date := completed_date w |}
  end.

Section Page.
Context (supabase : Client).

Definition fetchUserData : M (effect update) unit :=
  try_catch_finally
    (response <- call auth_getUser (getUser supabase) ;;
     match auth_user response with
     | None => ret tt
     | Some user =>
         profileData <- call (from_select "profiles" "full_name, email"
                                [eq "id" (Str (id user)); single])
                             (profiles_single supabase (id user)) ;;
         membershipData <- call (from_select "active_memberships"
                                   "name, end_date, trainer_name"
                                   [eq "user_id" (Str (id user)); single])
                                (active_memberships_single supabase (id user)) ;;
         workoutData <- call (from_select "user_workouts"
                                "workouts (name, exercises), assigned_date, completed_date"
                                [eq "user_id" (Str (id user));
                                 order "assigned_date" false; limit 5])
                             (user_workouts_recent supabase (id user)) ;;
         emit (SetState (setProfile (data profileData))) ;;
         emit (SetState (setMembership (data membershipData))) ;;
         (* workoutData?.map(...) || [] *)
         ws <- lift (match data workoutData with
                     | Some rows => map_throwing to_workout rows
                     | None => inr []
                     end) ;;
         emit (SetState (setWorkouts ws))
     end)
    (fun error => emit (ConsoleError "Error fetching user data:" error))
    (emit (SetState (setLoading false))).

(** The state once the effect of [useEffect] has run. *)
Definition mounted : state :=
  fold_left apply_effect (effects fetchUserData) initial_state.
End Page.

(** ** What the component renders *)
Record workout_item := {
  item_name : string;
  item_assigned : Sql.date;
  item_label : string }.

Record page := {
  membership_text : string;
  expires : option Sql.date;
  trainer_text : string;
  next_payment : option Sql.date;
  workouts_count : nat;
  recent_workouts : list workout_item }.

Inductive view := Loading | Page (p : page).

Definition render_workout (workout : Workout) : workout_item :=
  {| item_name := wk_name workout;
     item_assigned := wk_assigned_date workout;
     (* workout.completed_date ? 'Completed' : 'Pending'; a date text is never
        empty *)
     item_label := match wk_completed_date workout with
                   | Some _ => "Completed"
                   | None => "Pending"
                   end |}.

Definition render (s : state) : view :=
  if loading s then Loading
  else Page
    {| (* membership?.name || 'No active membership' *)
       membership_text :=
         match membership s with
         | Some m => or_str (name m) "No active membership"
         | None => "No active membership"
         end;
       (* membership && <p>Expires: ...</p> *)
       expires := option_map end_date (membership s);
       (* membership?.trainer_name || 'No trainer assigned' *)
       trainer_text :=
         match membership s with
         | Some {| trainer_name := Some t |} => or_str t "No trainer assigned"
         | _ => "No trainer assigned"
         end;
       (* membership ? formatDate(...) : 'N/A' *)
       next_payment := option_map end_date (membership s);
       workouts_count := List.length (workouts s);
       recent_workouts := map render_workout (workouts s) |}.

End ClientDashboard.

(* ===================================================================== *)
(** * [src/pages/AdminDashboard.tsx]                                       *)
(* ===================================================================== *)
Module AdminDashboard.
Import Js Supabase.
Local Open Scope eff_scope.

Record DashboardStats := {
  totalMembers : value;
  activeMembers : value;
  totalRevenue : value;
  upcomingRenewals : value }.

Record Member := {
  member_id : Sql.uuid;
  member_full_name : string;
  member_email : string;
  member_membership_name : string;
  member_trainer_name : option string;
  member_end_date : Sql.date }.

Inductive update :=
| setStats (s : DashboardStats)
| setMembers (ms : list Member)
| setLoading (b : bool).

Record state := {
  stats : DashboardStats;
  members : list Member;
  loading : bool }.

Definition initial_state : state :=
  {| stats := {| totalMembers := zero; activeMembers := zero;
                 totalRevenue := zero; upcomingRenewals := zero |};
     members := []; loading := true |}.

Definition apply_effect (s : state) (e : effect update) : state :=
  match e with
  | SetState (setStats st) =>
      {| stats := st; members := members s; loading := loading s |}
  | SetState (setMembers ms) =>
      {| stats := stats s; members := ms; loading := loading s |}
  | SetState (setLoading b) =>
      {| stats := stats s; members := members s; loading := b |}
  | _ => s
  end.

(** [sum + payment.amount] on numbers, without the rounding of doubles. *)
Definition add (a b : number) : number :=
  match a, b with
  | Fin x, Fin y => Fin (x + y)
  | _, _ => NaN
  end.

(** revenue?.reduce((sum, payment) => sum + payment.amount, 0) *)
Definition reduce_amounts (revenue : option (list amount_row)) : value :=
  match revenue with
  | Some rows => Num (fold_left (fun sum payment => add sum (Fin (amount payment)))
                                rows (Fin 0))
  | None => Undefined
  end.

(** The callback of [recentMembers?.map]: [member.profiles.full_name] throws
    when there is no embedded profile. *)
Definition to_member (member : active_memberships_sel) : exn + Member :=
  match am_profiles member with
  | None => inl (TypeError
      "Cannot read properties of undefined (reading 'full_name')")
  | Some p => inr {| member_id := am_user_id member;
                     member_full_name := pe_full_name p;
                     member_email := pe_email p;
                     member_membership_name := am_membership_name member;
                     member_trainer_name := am_trainer_name member;
                     member_end_date := am_end_date member |}
  end.

Section Page.
Context (supabase : Client).

Definition fetchDashboardData : M (effect update) unit :=
  try_catch_finally
    (membersCount <- call (from_select "profiles" "id" [count_exact])
                          (profiles_ids supabase) ;;
     activeMemberships <- call (from_select "user_memberships" "id"
                                  [count_exact; eq "status" (Str "active")])
                               (user_memberships_active_ids supabase) ;;
     revenue <- call (from_select "payments" "amount"
                        [eq "status" (Str "completed")])
                     (payments_completed_amounts supabase) ;;
     renewals <- call (from_select "upcoming_renewals" "id" [count_exact])
                      (upcoming_renewals_ids supabase) ;;
     recentMembers <- call (from_select "active_memberships"
                              "user_id, profiles!inner(full_name, email), membership_name, trainer_name, end_date"
                              [order "end_date" true; limit 10])
                           (active_memberships_recent supabase) ;;
     emit (SetState (setStats
       {| totalMembers := or (get_opt (to_js (data membersCount)) "count") zero;
          activeMembers :=
            or (get_opt (to_js (data activeMemberships)) "count") zero;
          totalRevenue := or (reduce_amounts (data revenue)) zero;
          upcomingRenewals :=
            or (get_opt (to_js (data renewals)) "count") zero |})) ;;
     ms <- lift (match data recentMembers with
                 | Some rows => map_throwing to_member rows
                 | None => inr []
                 end) ;;
     emit (SetState (setMembers ms)))
    (fun error => emit (ConsoleError "Error fetching dashboard data:" error))
    (emit (SetState (setLoading false))).

Definition mounted : state :=
  fold_left apply_effect (effects fetchDashboardData) initial_state.
End Page.

End AdminDashboard.

(* ===================================================================== *)
(** * The hosted service answering from the tables                         *)
(* ===================================================================== *)
Module Postgrest.
Import Sql Supabase.

Section Order.
Context {A : Type} (key : A -> Z).

Definition before (ascending : bool) (x y : A) : bool :=
  if ascending then key x <=? key y else key y <=? key x.

Fixpoint insert_ordered (ascending : bool) (x : A) (l : list A) : list A :=
  match l with
  | [] => [x]
  | y :: rest =>
      if before ascending x y then x :: y :: rest
      else y :: insert_ordered ascending x rest
  end.

(** .order(column, { ascending }) *)
Definition order_by (ascending : bool) (l : list A) : list A :=
  fold_right (insert_ordered ascending) [] l.
End Order.

Definition answer {T} (rows : T) (n : option nat) : PostgrestResponse T :=
  {| data := Some rows; error := None; count := n |}.

(** Selecting or filtering on a column the relation does not have. *)
Definition undefined_column {T} (relation column : string) : PostgrestResponse T :=
  {| data := None;
     error := Some ("column " ++ relation ++ "." ++ column ++ " does not exist");
     count := None |}.

(** .select('id', { count: 'exact' }): the rows in [data], their number in
    [count], beside it. *)
Definition select_ids {A} (key : A -> uuid) (rows : list A)
    : PostgrestResponse (list id_row) :=
  answer (map (fun r => {| row_id := key r |}) rows) (Some (List.length rows)).

(** The view [upcoming_renewals]; its columns are full_name, email,
    membership_plan, end_date and renewal_amount. *)
Record upcoming_renewals_row := {
  ur_full_name : string;
  ur_email : string;
  ur_membership_plan : string;
  ur_end_date : date;
  ur_renewal_amount : Q }.

Definition upcoming_renewals (CURRENT_DATE : date) (db : database)
    : list upcoming_renewals_row :=
  flat_map (fun um =>
    flat_map (fun p =>
      flat_map (fun m =>
        if is_true (sql_eq (um_user_id um) (Some (p_id p)))
           && is_true (sql_eq (um_membership_id um) (Some (m_id m)))
           && (CURRENT_DATE <=? um_end_date um)
           && (um_end_date um <=? CURRENT_DATE + 30)
           && membership_status_eqb (um_status um) active
        then [ {| ur_full_name := p_full_name p; ur_email := p_email p;
                  ur_membership_plan := m_name m; ur_end_date := um_end_date um;
                  ur_renewal_amount := m_price m |} ]
        else [])
        (memberships db))
      (profiles db))
    (user_memberships db).

(** The embedded [workouts (name, exercises)] of a user_workouts row. *)
Definition embed_workout (db : database) (r : user_workouts_row)
    : option workouts_embed :=
  match uw_workout_id r with
  | None => None
  | Some wid =>
      option_map (fun w => {| Supabase.w_name := Sql.w_name w;
                              Supabase.w_exercises := Sql.w_exercises w |})
                 (find (fun w => String.eqb (w_id w) wid) (Sql.workouts db))
  end.

(** from('user_workouts').select(...).eq('user_id', uid)
      .order('assigned_date', { ascending: false }).limit(5) *)
Definition user_workouts_query (db : database) (uid : uuid)
    : list user_workouts_row :=
  firstn 5
    (order_by uw_assigned_date false
       (filter (fun r => is_true (sql_eq (uw_user_id r) (Some uid)))
               (user_workouts db))).

Definition user_workouts_answer (db : database) (uid : uuid)
    : PostgrestResponse (list user_workouts_sel) :=
  answer (map (fun r => {| Supabase.workouts := embed_workout db r;
                           assigned_date := uw_assigned_date r;
                           completed_date := uw_completed_date r |})
              (user_workouts_query db uid))
         None.

(** A client whose table queries are answered from [db]; the authentication
    service, the writes and the two single-row reads stay those of [base]. *)
Definition on_database (base : Client) (db : database) : Client :=
  {| signInWithPassword := signInWithPassword base;
     signUp := signUp base;
     getUser := getUser base;
     users_role := users_role base;
     users_insert := users_insert base;
     profiles_insert := profiles_insert base;
     profiles_single := profiles_single base;
     active_memberships_single := active_memberships_single base;
     user_workouts_recent := user_workouts_answer db;
     profiles_ids := select_ids p_id (profiles db);
     user_memberships_active_ids :=
       select_ids um_id
         (filter (fun r => membership_status_eqb (um_status r) active)
                 (user_memberships db));
     payments_completed_amounts :=
       answer (map (fun r => {| amount := pay_amount r |})
                   (filter (fun r => payment_status_eqb (pay_status r) completed)
                           (payments db)))
              None;
     (* the view has no id column *)
     upcoming_renewals_ids := undefined_column "upcoming_renewals" "id";
     (* nor has active_memberships a user_id column *)
     active_memberships_recent := undefined_column "active_memberships" "user_id" |}.

End Postgrest.

(* ===================================================================== *)
(** * Vocabulary of the statements                                         *)
(* ===================================================================== *)
Module Props.
Import Sql Js Supabase.

(** Two user_memberships rows agree on every column but status. *)
Definition same_except_status (r r' : user_memberships_row) : Prop :=
  um_id r' = um_id r /\
  um_user_id r' = um_user_id r /\
  um_membership_id r' = um_membership_id r /\
  um_trainer_id r' = um_trainer_id r /\
  um_start_date r' = um_start_date r /\
  um_end_date r' = um_end_date r /\
  um_created_at r' = um_created_at r /\
  um_updated_at r' = um_updated_at r.

(** The membership row belongs to the user and the plan of the payment. *)
Definition same_user_and_plan (NEW : payments_row) (r : user_memberships_row)
    : Prop :=
  exists u m,
    pay_user_id NEW = Some u /\ um_user_id r = Some u /\
    pay_membership_id NEW = Some m /\ um_membership_id r = Some m.

(** Active memberships assigned to trainer [t]. *)
Definition active_of (t : uuid) (tbl : list user_memberships_row) : Z :=
  count_active (Some t) tbl.

(** Some fired row of an UPDATE on payments is completed and matches [r]. *)
Definition touched (fired : list payments_row) (r : user_memberships_row) : bool :=
  existsb (fun n => payment_status_eqb (pay_status n) completed
                    && payment_where n r) fired.

(** [x] may stand before [y] when the later date comes first. *)
Definition later_first {A} (key : A -> Z) (x y : A) : Prop := key y <= key x.

(** The item on the page is a workout assigned to user [uid]: it carries the
    name of the workout and the date of the assignment, and reads Completed
    exactly when the assignment has a completion date, Pending otherwise. *)
Definition shows (db : database) (uid : uuid)
    (item : ClientDashboard.workout_item) : Prop :=
  exists r w,
    In r (user_workouts db) /\ uw_user_id r = Some uid /\
    In w (Sql.workouts db) /\ uw_workout_id r = Some (w_id w) /\
    ClientDashboard.item_name item = Sql.w_name w /\
    ClientDashboard.item_assigned item = uw_assigned_date r /\
    (ClientDashboard.item_label item = "Completed"
     <-> uw_completed_date r <> None) /\
    (ClientDashboard.item_label item = "Pending"
     <-> uw_completed_date r = None).

(** A number is strictly positive. *)
Definition strictly_positive (n : number) : Prop :=
  match n with
  | Fin q => (0 < q)%Q
  | NaN => False
  end.

(** What the registration schema is given: three texts and six fields that may
    be left out; a date of birth, when given, is a Date, which holds a time
    value or is an Invalid Date ([None]). *)
Record RegistrationInput := {
  in_email : string;
  in_password : string;
  in_fullName : string;
  in_phone : option string;
  in_height : option number;
  in_weight : option number;
  in_dateOfBirth : option (option Z);
  in_emergencyContact : option string;
  in_medicalConditions : option string }.

Definition supplied {A} (f : A -> value) (o : option A) : value :=
  match o with Some a => f a | None => Undefined end.

Definition registration_value (i : RegistrationInput) : value :=
  Obj [ ("email", Str (in_email i));
        ("password", Str (in_password i));
        ("fullName", Str (in_fullName i));
        ("phone", supplied Str (in_phone i));
        ("height", supplied Num (in_height i));
        ("weight", supplied Num (in_weight i));
        ("dateOfBirth", supplied Date (in_dateOfBirth i));
        ("emergencyContact", supplied Str (in_emergencyContact i));
        ("medicalConditions", supplied Str (in_medicalConditions i)) ].

End Props.

(* ===================================================================== *)
(** * Concrete databases and sessions                                      *)
(* ===================================================================== *)
Module Examples.
Import Sql.

Definition member (key user : string) (ends : date) : user_memberships_row :=
  {| um_id := key; um_user_id := Some user; um_membership_id := Some "gold";
     um_trainer_id := Some "coach"; um_start_date := 0; um_end_date := ends;
     um_status := active; um_created_at := 0; um_updated_at := 0 |}.

Definition payment (user : string) (s : payment_status) : payments_row :=
  {| pay_id := "pay-" ++ user; pay_user_id := Some user;
     pay_membership_id := Some "gold"; pay_amount := 50;
     pay_payment_date := 0; pay_status := s; pay_payment_method := "card";
     pay_transaction_id := None; pay_created_at := 0; pay_updated_at := 0 |}.

Definition set_pay_status (s : payment_status) (p : payments_row) : payments_row :=
  {| pay_id := pay_id p; pay_user_id := pay_user_id p;
     pay_membership_id := pay_membership_id p; pay_amount := pay_amount p;
     pay_payment_date := pay_payment_date p; pay_status := s;
     pay_payment_method := pay_payment_method p;
     pay_transaction_id := pay_transaction_id p;
     pay_created_at := pay_created_at p; pay_updated_at := pay_updated_at p |}.

Definition first_ten : list string :=
  ["a1"; "a2"; "a3"; "a4"; "a5"; "a6"; "a7"; "a8"; "a9"; "a10"].
Definition next_ten : list string :=
  ["b1"; "b2"; "b3"; "b4"; "b5"; "b6"; "b7"; "b8"; "b9"; "b10"].

(** Ten clients join coach and lapse; ten more join; then the pending payment
    of the first lapsed client is marked completed. *)
Definition overbooking : list statement :=
  (map (fun u => InsertUserMembership (member u u 30)) first_ten
   ++ [CallUpdateMembershipStatus 31]
   ++ map (fun u => InsertUserMembership (member u u 60)) next_ten
   ++ [InsertPayment (payment "a1" pending);
       UpdatePayments (fun p => String.eqb (pay_id p) "pay-a1")
                      (set_pay_status completed)])%list.

Definition ten_active : database :=
  with_user_memberships empty_database
    (map (fun u => member u u 60) next_ten).

Definition alice : users_row :=
  {| u_id := "alice"; u_role := client; u_created_at := 0; u_updated_at := 0 |}.

Definition only_alice : database := with_users empty_database [alice].

Definition lapsed : user_memberships_row :=
  set_um_status (member "m1" "a1" 30) expired.

(** A lapsed and a running membership, with the pending payments of both
    members. *)
Definition arrears : database :=
  with_payments
    (with_user_memberships empty_database [lapsed; member "m2" "a2" 31])
    [payment "a1" pending; payment "a2" pending].

End Examples.

Module Scenarios.
Import Sql Js Supabase.

Fixpoint has_at (s : string) : bool :=
  match s with
  | EmptyString => false
  | String c rest => Ascii.eqb c "@" || has_at rest
  end.

(** A runtime to run the pages on: an address is a text with an at sign, and
    the only numerals and dates read are the ones typed below. *)
Definition runtime : Runtime :=
  {| email_regex_test := has_at;
     parseFloat := fun s => if String.eqb s "180" then Fin 180
                            else if String.eqb s "75" then Fin 75 else NaN;
     Date_parse := fun s => if String.eqb s "1990-01-01" then Some 631152000000
                            else None |}.

Definition refused {T} (msg : string) : PostgrestResponse T :=
  {| data := None; error := Some msg; count := None |}.

(** A service that signs [user] in (or refuses when there is none), answers
    the two writes as given and refuses every read. *)
Definition service (user : option User) (write_users write_profiles : option string)
    : Client :=
  let auth := {| auth_user := user;
                 auth_error := match user with
                               | Some _ => None
                               | None => Some "Invalid login credentials"
                               end |} in
  {| signInWithPassword := fun _ => auth;
     signUp := fun _ => auth;
     getUser := auth;
     users_role := fun _ => refused "permission denied for table users";
     users_insert := fun _ =>
       {| data := None; error := write_users; count := None |};
     profiles_insert := fun _ =>
       {| data := None; error := write_profiles; count := None |};
     profiles_single := fun _ => refused "permission denied for table profiles";
     active_memberships_single := fun _ =>
       refused "column active_memberships.name does not exist";
     user_workouts_recent := fun _ =>
       refused "permission denied for table user_workouts";
     profiles_ids := refused "permission denied for table profiles";
     user_memberships_active_ids :=
       refused "permission denied for table user_memberships";
     payments_completed_amounts := refused "permission denied for table payments";
     upcoming_renewals_ids := refused "column upcoming_renewals.id does not exist";
     active_memberships_recent :=
       refused "column active_memberships.user_id does not exist" |}.

Definition alice : User := {| id := "alice" |}.

Definition login_form : LoginPage.FormData :=
  {| LoginPage.email := "alice@fithub.test"; LoginPage.password := "correct horse" |}.

Definition registration_form : RegisterPage.FormData :=
  {| RegisterPage.email := "alice@fithub.test";
     RegisterPage.password := "correct horse";
     RegisterPage.fullName := "Alice";
     RegisterPage.phone := "";
     RegisterPage.height := "180";
     RegisterPage.weight := "";
     RegisterPage.dateOfBirth := "1990-01-01";
     RegisterPage.emergencyContact := "";
     RegisterPage.medicalConditions := "" |}.

Definition squat : workouts_row :=
  {| w_id := "squat"; Sql.w_name := "Squats"; w_description := None;
     w_difficulty_level := Some 3; w_duration_minutes := 30;
     Sql.w_exercises := "[]"; w_created_at := 0; w_updated_at := 0 |}.

Definition assigned (key : string) (user : string) (day : date)
    (finished : option date) : user_workouts_row :=
  {| uw_id := key; uw_user_id := Some user; uw_workout_id := Some "squat";
     uw_trainer_id := None; uw_assigned_date := day;
     uw_completed_date := finished; uw_notes := None;
     uw_created_at := 0; uw_updated_at := 0 |}.

(** One member with one plan ending in ten days (today being day 100), one
    completed payment and six assigned workouts, besides one of another user. *)
Definition gym : database :=
  {| users := [Examples.alice];
     profiles := [ {| p_id := "alice"; p_full_name := "Alice";
                      p_email := "alice@fithub.test"; p_phone := None;
                      p_height := None; p_weight := None;
                      p_date_of_birth := None; p_emergency_contact := None;
                      p_medical_conditions := None;
                      p_created_at := 0; p_updated_at := 0 |} ];
     memberships := [ {| m_id := "gold"; m_name := "Gold"; m_description := None;
                         m_duration_months := 12; m_price := 50;
                         m_created_at := 0; m_updated_at := 0 |} ];
     user_memberships := [ Examples.member "m1" "alice" 110 ];
     Sql.workouts := [ squat ];
     user_workouts := [ assigned "w1" "alice" 10 (Some 11);
                        assigned "w2" "alice" 40 None;
                        assigned "w3" "bob" 90 None;
                        assigned "w4" "alice" 20 (Some 25);
                        assigned "w5" "alice" 60 None;
                        assigned "w6" "alice" 50 (Some 50);
                        assigned "w7" "alice" 30 None ];
     payments := [ Examples.payment "alice" completed;
                   Examples.payment "alice" pending ];
     audit_logs := [] |}.

End Scenarios.

(* ===================================================================== *)
(** * The other procedures and views of the migration                      *)
(* ===================================================================== *)
Module Procedures.
Import Sql.

(** What the column defaults of one INSERT draw: uuid_generate_v4() and
    now(). *)
Record defaults := { fresh_id : uuid; now : timestamptz }.

(** [a <= b] on dates that may be NULL. *)
Definition sql_le (a b : option date) : tri :=
  match a, b with
  | Some x, Some y => Some (x <=? y)
  | _, _ => None
  end.

(** [x BETWEEN a AND b]. *)
Definition sql_between (x a b : option date) : tri :=
  sql_and (sql_le a x) (sql_le x b).

Definition not_null_violation (column relation : string) : string :=
  "null value in column " ++ column ++ " of relation " ++ relation
  ++ " violates not-null constraint".

(** INSERT INTO user_memberships (user_id, membership_id, trainer_id,
    start_date, end_date) VALUES (...): id, status and the two timestamps take
    their defaults; the BEFORE INSERT trigger runs first, then the NOT NULL
    constraints of start_date and end_date are checked. *)
Definition insert_into_user_memberships (d : defaults)
    (user_id membership_id trainer_id : option uuid)
    (start_date end_date : option date) (db : database) : result database :=
  match start_date, end_date with
  | Some s, Some e =>
      insert_user_membership
        {| um_id := fresh_id d; um_user_id := user_id;
           um_membership_id := membership_id; um_trainer_id := trainer_id;
           um_start_date := s; um_end_date := e; um_status := active;
           um_created_at := now d; um_updated_at := now d |} db
  | _, _ =>
      if 10 <=? count_active trainer_id (user_memberships db)
      then Exception "Trainer has reached maximum client capacity"
      else Exception (not_null_violation
                        (match start_date with
                         | None => "start_date"
                         | Some _ => "end_date"
                         end) "user_memberships")
  end.

(** INSERT INTO payments (...) VALUES (...), for a column list that gives
    user_id, membership_id, amount, payment_date and status and may give
    payment_method: amount, payment_date and payment_method are NOT NULL and
    have no default; transaction_id stays NULL. *)
Definition insert_into_payments (d : defaults)
    (user_id membership_id : option uuid) (amount : option Q)
    (payment_date : option date) (status : payment_status)
    (payment_method : option string) (db : database) : result database :=
  match amount, payment_date, payment_method with
  | None, _, _ => Exception (not_null_violation "amount" "payments")
  | _, None, _ => Exception (not_null_violation "payment_date" "payments")
  | _, _, None => Exception (not_null_violation "payment_method" "payments")
  | Some a, Some pd, Some pm =>
      Ok (insert_payment
            {| pay_id := fresh_id d; pay_user_id := user_id;
               pay_membership_id := membership_id; pay_amount := a;
               pay_payment_date := pd; pay_status := status;
               pay_payment_method := pm; pay_transaction_id := None;
               pay_created_at := now d; pay_updated_at := now d |} db)
  end.

Section RegisterNewMember.
(** [d + n * INTERVAL '1 month'], cast back to a date: the calendar arithmetic
    of the server. *)
Context (add_months : date -> Z -> date).
Context (CURRENT_DATE : date) (for_membership for_payment : defaults).

(** PROCEDURE register_new_member(p_user_id, p_membership_id, p_trainer_id,
    p_start_date).  SELECT ... INTO leaves the variables NULL when no plan has
    the id; an exception aborts the call and undoes what it did. *)
Definition register_new_member
    (p_user_id p_membership_id p_trainer_id : option uuid)
    (p_start_date : option date) (db : database) : result database :=
  let plan := find (fun m => is_true (sql_eq (Some (m_id m)) p_membership_id))
                   (memberships db) in
  let v_duration_months := option_map m_duration_months plan in
  let v_membership_price := option_map m_price plan in
  let v_end_date := match p_start_date, v_duration_months with
                    | Some s, Some n => Some (add_months s n)
                    | _, _ => None
                    end in
  match insert_into_user_memberships for_membership p_user_id p_membership_id
          p_trainer_id p_start_date v_end_date db with
  | Exception msg => Exception msg
  | Ok db1 =>
      (* the column list of this INSERT has no payment_method *)
      insert_into_payments for_payment p_user_id p_membership_id
        v_membership_price (Some CURRENT_DATE) pending None db1
  end.

(** CALL register_new_member(...), seen from the session. *)
Definition call_register_new_member
    (p_user_id p_membership_id p_trainer_id : option uuid)
    (p_start_date : option date) (db : database) : database :=
  match register_new_member p_user_id p_membership_id p_trainer_id
          p_start_date db with
  | Ok db' => db'
  | Exception _ => db
  end.
End RegisterNewMember.

(** ** PROCEDURE generate_payment_summary *)
Record payment_summary_row := {
  ps_full_name : string;
  ps_membership_plan : string;
  ps_amount : Q;
  ps_payment_date : date;
  ps_status : payment_status }.

(** SELECT ... FROM payments pay JOIN profiles p ON pay.user_id = p.id
    JOIN memberships m ON pay.membership_id = m.id
    WHERE pay.payment_date BETWEEN p_start_date AND p_end_date
    ORDER BY pay.payment_date DESC. *)
Definition payment_summary_query (p_start_date p_end_date : option date)
    (db : database) : list payment_summary_row :=
  Postgrest.order_by ps_payment_date false
    (flat_map (fun pay =>
       flat_map (fun p =>
         flat_map (fun m =>
           if is_true (sql_eq (pay_user_id pay) (Some (p_id p)))
              && is_true (sql_eq (pay_membership_id pay) (Some (m_id m)))
              && is_true (sql_between (Some (pay_payment_date pay))
                                      p_start_date p_end_date)
           then [ {| ps_full_name := p_full_name p;
                     ps_membership_plan := m_name m;
                     ps_amount := pay_amount pay;
                     ps_payment_date := pay_payment_date pay;
                     ps_status := pay_status pay |} ]
           else [])
           (memberships db))
         (profiles db))
       (payments db)).

(** CREATE TEMP TABLE IF NOT EXISTS payment_summary AS ...: the temporary
    table of the session is [None] until it is created, and an existing one is
    left alone. *)
Definition generate_payment_summary (p_start_date p_end_date : option date)
    (db : database) (payment_summary : option (list payment_summary_row))
    : option (list payment_summary_row) :=
  match payment_summary with
  | Some existing => Some existing
  | None => Some (payment_summary_query p_start_date p_end_date db)
  end.

(** ** VIEW active_memberships *)
Record active_memberships_row := {
  amv_id : uuid;
  amv_user_name : string;
  amv_membership_name : string;
  amv_start_date : date;
  amv_end_date : date;
  amv_trainer_name : option string }.

(** FROM user_memberships um JOIN profiles p ON um.user_id = p.id
    JOIN memberships m ON um.membership_id = m.id
    LEFT JOIN profiles t ON um.trainer_id = t.id WHERE um.status = 'active'. *)
Definition active_memberships (db : database) : list active_memberships_row :=
  flat_map (fun um =>
    flat_map (fun p =>
      flat_map (fun m =>
        if is_true (sql_eq (um_user_id um) (Some (p_id p)))
           && is_true (sql_eq (um_membership_id um) (Some (m_id m)))
           && membership_status_eqb (um_status um) active
        then
          let row := fun trainer_name =>
            {| amv_id := um_id um; amv_user_name := p_full_name p;
               amv_membership_name := m_name m;
               amv_start_date := um_start_date um;
               amv_end_date := um_end_date um;
               amv_trainer_name := trainer_name |} in
          match filter (fun t => is_true (sql_eq (um_trainer_id um)
                                                 (Some (p_id t))))
                       (profiles db) with
          | [] => [row None]
          | ts => map (fun t => row (Some (p_full_name t))) ts
          end
        else [])
        (memberships db))
      (profiles db))
    (user_memberships db).

End Procedures.

(* ===================================================================== *)
(** * Further vocabulary                                                   *)
(* ===================================================================== *)
Module Notions.
Import Sql Js Supabase.

(** The paths a trace navigates to, in order. *)
Definition navigations {U} (trace : list (effect U)) : list string :=
  flat_map (fun e => match e with Navigate path => [path] | _ => [] end) trace.

(** The errors a trace logs to the console. *)
Definition console_errors {U} (trace : list (effect U)) : list exn :=
  flat_map (fun e => match e with ConsoleError _ x => [x] | _ => [] end) trace.

(** The assignments of user [uid], as the table holds them. *)
Definition assignments_of (db : database) (uid : uuid) : list user_workouts_row :=
  filter (fun r => is_true (sql_eq (uw_user_id r) (Some uid))) (user_workouts db).

(** The statement is not an UPDATE on payments. *)
Definition leaves_payments_as_inserted (s : statement) : bool :=
  match s with
  | UpdatePayments _ _ => false
  | _ => true
  end.

(** A field of the registration form that is left blank is not supplied. *)
Definition blank_or {A} (text : string) (read : string -> A) (ok : A -> Prop)
    : Prop :=
  text = "" \/ ok (read text).

End Notions.

Module Cases.
Import Sql Js Supabase.

Definition calendar30 (d : date) (n : Z) : date := d + 30 * n.

Definition seed : Procedures.defaults :=
  {| Procedures.fresh_id := "generated"; Procedures.now := 0 |}.

(** Two memberships of coach, one lapsed on day 30 and one running to day 45,
    with the profiles and the plan they join. *)
Definition club : database :=
  {| users := [Examples.alice];
     profiles := [ {| p_id := "a1"; p_full_name := "Ann";
                      p_email := "ann@fithub.test"; p_phone := None;
                      p_height := None; p_weight := None;
                      p_date_of_birth := None; p_emergency_contact := None;
                      p_medical_conditions := None;
                      p_created_at := 0; p_updated_at := 0 |};
                   {| p_id := "a2"; p_full_name := "Bea";
                      p_email := "bea@fithub.test"; p_phone := None;
                      p_height := None; p_weight := None;
                      p_date_of_birth := None; p_emergency_contact := None;
                      p_medical_conditions := None;
                      p_created_at := 0; p_updated_at := 0 |} ];
     memberships := [ {| m_id := "gold"; m_name := "Gold"; m_description := None;
                         m_duration_months := 12; m_price := 50;
                         m_created_at := 0; m_updated_at := 0 |} ];
     user_memberships := [ Examples.member "m1" "a1" 30;
                           Examples.member "m2" "a2" 45 ];
     Sql.workouts := [];
     user_workouts := [];
     payments := [ Examples.payment "a1" completed;
                   Examples.payment "a2" pending ];
     audit_logs := [] |}.

(** A form whose password is too short. *)
Definition short_password : LoginPage.FormData :=
  {| LoginPage.email := "alice@fithub.test"; LoginPage.password := "horse" |}.

Definition nameless : RegisterPage.FormData :=
  {| RegisterPage.email := "alice@fithub.test";
     RegisterPage.password := "correct horse";
     RegisterPage.fullName := "A";
     RegisterPage.phone := "";
     RegisterPage.height := "";
     RegisterPage.weight := "";
     RegisterPage.dateOfBirth := "";
     RegisterPage.emergencyContact := "";
     RegisterPage.medicalConditions := "" |}.

(** The service of [Scenarios.service], answering the workouts query with the
    given rows. *)
Definition with_workouts (base : Client) (rows : list user_workouts_sel) : Client :=
  {| signInWithPassword := signInWithPassword base;
     signUp := signUp base;
     getUser := getUser base;
     users_role := users_role base;
     users_insert := users_insert base;
     profiles_insert := profiles_insert base;
     profiles_single := profiles_single base;
     active_memberships_single := active_memberships_single base;
     user_workouts_recent := fun _ => Postgrest.answer rows None;
     profiles_ids := profiles_ids base;
     user_memberships_active_ids := user_memberships_active_ids base;
     payments_completed_amounts := payments_completed_amounts base;
     upcoming_renewals_ids := upcoming_renewals_ids base;
     active_memberships_recent := active_memberships_recent base |}.

(** The same service, answering the role lookup with [r]. *)
Definition with_role (base : Client) (r : Sql.user_role) : Client :=
  {| signInWithPassword := signInWithPassword base;
     signUp := signUp base;
     getUser := getUser base;
     users_role := fun _ => Postgrest.answer {| role := r |} None;
     users_insert := users_insert base;
     profiles_insert := profiles_insert base;
     profiles_single := profiles_single base;
     active_memberships_single := active_memberships_single base;
     user_workouts_recent := user_workouts_recent base;
     profiles_ids := profiles_ids base;
     user_memberships_active_ids := user_memberships_active_ids base;
     payments_completed_amounts := payments_completed_amounts base;
     upcoming_renewals_ids := upcoming_renewals_ids base;
     active_memberships_recent := active_memberships_recent base |}.

Definition orphan_rows : list user_workouts_sel :=
  [ {| Supabase.workouts := Some {| Supabase.w_name := "Squats";
                                    Supabase.w_exercises := "[]" |};
       assigned_date := 20; completed_date := None |};
    {| Supabase.workouts := None; assigned_date := 10;
       completed_date := Some 12 |} ].

(** Ten clients join coach and lapse, ten more join, an eleventh is turned
    away, and a payment is recorded as pending. *)
Definition busy_season : list statement :=
  (map (fun u => InsertUserMembership (Examples.member u u 30)) Examples.first_ten
   ++ [CallUpdateMembershipStatus 31]
   ++ map (fun u => InsertUserMembership (Examples.member u u 60)) Examples.next_ten
   ++ [InsertUserMembership (Examples.member "c1" "c1" 60);
       InsertPayment (Examples.payment "a1" pending)])%list.

Definition unnamed_member : list active_memberships_sel :=
  [ {| am_user_id := "a1";
       am_profiles := Some {| pe_full_name := "Ann"; pe_email := "ann@fithub.test" |};
       am_membership_name := "Gold"; am_trainer_name := None; am_end_date := 30 |};
    {| am_user_id := "a2"; am_profiles := None;
       am_membership_name := "Gold"; am_trainer_name := Some "Coach";
       am_end_date := 45 |} ].

(** The service of [base], answering the recent-members query with [rows]. *)
Definition with_members (base : Client) (rows : list active_memberships_sel)
    : Client :=
  {| signInWithPassword := signInWithPassword base;
     signUp := signUp base;
     getUser := getUser base;
     users_role := users_role base;
     users_insert := users_insert base;
     profiles_insert := profiles_insert base;
     profiles_single := profiles_single base;
     active_memberships_single := active_memberships_single base;
     user_workouts_recent := user_workouts_recent base;
     profiles_ids := profiles_ids base;
     user_memberships_active_ids := user_memberships_active_ids base;
     payments_completed_amounts := payments_completed_amounts base;
     upcoming_renewals_ids := upcoming_renewals_ids base;
     active_memberships_recent := Postgrest.answer rows None |}.

(** A membership without a trainer. *)
Definition walk_in : user_memberships_row :=
  {| um_id := "m0"; um_user_id := Some "c1"; um_membership_id := Some "gold";
     um_trainer_id := None; um_start_date := 0; um_end_date := 60;
     um_status := active; um_created_at := 0; um_updated_at := 0 |}.

(** A registration input whose date of birth is a Date that holds no time
    value, as [new Date("tomorrow")] is. *)
Definition misdated : Props.RegistrationInput :=
  {| Props.in_email := "alice@fithub.test";
     Props.in_password := "correct horse";
     Props.in_fullName := "Alice"; Props.in_phone := None;
     Props.in_height := None; Props.in_weight := None;
     Props.in_dateOfBirth := Some None; Props.in_emergencyContact := None;
     Props.in_medicalConditions := None |}.

(** A registration object that leaves optional keys out and carries a key no
    schema knows. *)
Definition sign_up_object : list (string * value) :=
  [ ("email", Str "alice@fithub.test");
    ("password", Str "correct horse");
    ("fullName", Str "Alice");
    ("height", Num (Fin 180));
    ("newsletter", Bool true) ].

End Cases.

(* ===================================================================== *)
(** * Properties of the triggers and procedures                            *)
(* ===================================================================== *)
Import Sql Props.

Lemma membership_status_eqb_eq (a b : membership_status) :
  membership_status_eqb a b = true <-> a = b.
Proof. destruct a, b; simpl; split; intro E; congruence. Qed.

Lemma payment_status_eqb_eq (a b : payment_status) :
  payment_status_eqb a b = true <-> a = b.
Proof. destruct a, b; simpl; split; intro E; congruence. Qed.

Lemma sql_eq_true (a b : option uuid) :
  is_true (sql_eq a b) = true <-> exists x, a = Some x /\ b = Some x.
Proof.
  destruct a as [x|], b as [y|]; simpl.
  - destruct (String.eqb_spec x y) as [->|N]; split.
    + intros _. now exists y.
    + reflexivity.
    + discriminate.
    + intros (z & E1 & E2). congruence.
  - split; [discriminate | intros (z & _ & E); discriminate].
  - split; [discriminate | intros (z & E & _); discriminate].
  - split; [discriminate | intros (z & E & _); discriminate].
Qed.

Lemma is_true_and (a b : tri) :
  is_true (sql_and a b) = is_true a && is_true b.
Proof. destruct a as [[|]|], b as [[|]|]; reflexivity. Qed.

Lemma payment_where_spec (NEW : payments_row) (r : user_memberships_row) :
  payment_where NEW r = true <-> same_user_and_plan NEW r.
Proof.
  unfold payment_where, same_user_and_plan.
  rewrite is_true_and, andb_true_iff, !sql_eq_true. split.
  - intros [(u & E1 & E2) (m & E3 & E4)]. exists u, m. auto.
  - intros (u & m & E1 & E2 & E3 & E4). split; [exists u | exists m]; auto.
Qed.

Lemma same_except_status_refl (r : user_memberships_row) :
  same_except_status r r.
Proof. repeat split. Qed.

Lemma same_except_status_set (r : user_memberships_row) (s : membership_status) :
  same_except_status r (set_um_status r s).
Proof. repeat split. Qed.

(** C3: the expiry procedure expires exactly the active rows whose end date is
    before the current date, and touches nothing else: row by row, a row that
    is active and past its end date keeps every column but status, which
    becomes expired; any other row is left as it is. *)
Theorem update_membership_status_expires_exactly :
  forall (CURRENT_DATE : date) (tbl : list user_memberships_row),
    Forall2 (fun r r' =>
               same_except_status r r' /\
               (um_status r = active /\ um_end_date r < CURRENT_DATE ->
                um_status r' = expired) /\
               (~ (um_status r = active /\ um_end_date r < CURRENT_DATE) ->
                r' = r))
            tbl (update_membership_status CURRENT_DATE tbl).
Proof.
  intros today tbl. induction tbl as [|r tbl IH]; simpl; constructor; auto.
  unfold update_membership_status_where. rewrite is_true_and. simpl.
  destruct (Z.ltb_spec (um_end_date r) today) as [L|L]; simpl.
  - destruct (membership_status_eqb (um_status r) active) eqn:S.
    + split; [apply same_except_status_set|]. split; [reflexivity|].
      intros N. exfalso. apply N. split; [now apply membership_status_eqb_eq|lia].
    + split; [apply same_except_status_refl|]. split; [|reflexivity].
      intros [A _]. apply membership_status_eqb_eq in A. congruence.
  - split; [apply same_except_status_refl|]. split; [|reflexivity].
    intros [_ B]. lia.
Qed.

Lemma update_membership_status_witness :
  update_membership_status 31 [Examples.member "m1" "a1" 30; Examples.member "m2" "a2" 31]
  = [Examples.lapsed; Examples.member "m2" "a2" 31]
  /\ Forall2 (fun r r' =>
               same_except_status r r' /\
               (um_status r = active /\ um_end_date r < 31 ->
                um_status r' = expired) /\
               (~ (um_status r = active /\ um_end_date r < 31) -> r' = r))
            [Examples.member "m1" "a1" 30; Examples.member "m2" "a2" 31]
            (update_membership_status 31
               [Examples.member "m1" "a1" 30; Examples.member "m2" "a2" 31]).
Proof.
  split; [reflexivity|].
  exact (update_membership_status_expires_exactly 31
           [Examples.member "m1" "a1" 30; Examples.member "m2" "a2" 31]).
Defined.

Lemma trigger_as_map (NEW : payments_row) (tbl : list user_memberships_row) :
  update_membership_status_on_payment NEW tbl
  = map (fun r => if payment_status_eqb (pay_status NEW) completed
                     && payment_where NEW r
                  then set_um_status r active else r) tbl.
Proof.
  unfold update_membership_status_on_payment.
  destruct (payment_status_eqb (pay_status NEW) completed); simpl.
  - reflexivity.
  - now rewrite map_id.
Qed.

(** The trigger function alone, for any NEW row. *)
Lemma trigger_function_activates_matching :
  forall (NEW : payments_row) (tbl : list user_memberships_row),
    (pay_status NEW = completed ->
     Forall2 (fun r r' =>
                same_except_status r r' /\
                (same_user_and_plan NEW r -> um_status r' = active) /\
                (~ same_user_and_plan NEW r -> r' = r))
             tbl (update_membership_status_on_payment NEW tbl)) /\
    (pay_status NEW <> completed ->
     update_membership_status_on_payment NEW tbl = tbl).
Proof.
  intros NEW tbl. split.
  - intros C. rewrite trigger_as_map.
    apply (proj2 (payment_status_eqb_eq _ _)) in C. rewrite C. simpl.
    induction tbl as [|r tbl IH]; simpl; constructor; auto.
    destruct (payment_where NEW r) eqn:W.
    + split; [apply same_except_status_set|]. split; [reflexivity|].
      intros N. exfalso. apply N. now apply payment_where_spec.
    + split; [apply same_except_status_refl|]. split; [|reflexivity].
      intros S. apply payment_where_spec in S. congruence.
  - intros N. unfold update_membership_status_on_payment.
    destruct (payment_status_eqb (pay_status NEW) completed) eqn:E.
    + apply payment_status_eqb_eq in E. contradiction.
    + reflexivity.
Qed.

(** ** The UPDATE statement on payments *)

Lemma payment_where_set_status (n : payments_row) (r : user_memberships_row)
    (s : membership_status) :
  payment_where n (set_um_status r s) = payment_where n r.
Proof. reflexivity. Qed.

Lemma fired_triggers_as_map (fired : list payments_row) :
  forall tbl : list user_memberships_row,
    fold_left (fun t NEW => update_membership_status_on_payment NEW t) fired tbl
    = map (fun r => if touched fired r then set_um_status r active else r) tbl.
Proof.
  induction fired as [|n fired IH]; intros tbl; simpl.
  - now rewrite map_id.
  - rewrite IH, trigger_as_map, map_map. apply map_ext. intros r.
    destruct (payment_status_eqb (pay_status n) completed && payment_where n r)
      eqn:E; simpl.
    + assert (T : touched fired (set_um_status r active) = touched fired r)
        by reflexivity.
      rewrite T. destruct (touched fired r); reflexivity.
    + reflexivity.
Qed.

Lemma touched_by (fired : list payments_row) (n : payments_row)
    (r : user_memberships_row) :
  In n fired -> pay_status n = completed -> same_user_and_plan n r ->
  touched fired r = true.
Proof.
  intros I C S. unfold touched. apply existsb_exists. exists n. split; auto.
  apply andb_true_iff. split.
  - now apply payment_status_eqb_eq.
  - now apply payment_where_spec.
Qed.

Lemma touched_by_update (where_ : payments_row -> bool)
    (set_ : payments_row -> payments_row) (ps : list payments_row)
    (r : user_memberships_row) :
  touched (map set_ (filter where_ ps)) r = true <->
  exists p, In p ps /\ where_ p = true /\
            pay_status (set_ p) = completed /\ same_user_and_plan (set_ p) r.
Proof.
  unfold touched. rewrite existsb_exists. split.
  - intros (n & I & C). apply in_map_iff in I. destruct I as (p & <- & I).
    apply filter_In in I. destruct I as [I W].
    apply andb_true_iff in C. destruct C as [C M].
    exists p. repeat split; auto.
    + now apply payment_status_eqb_eq.
    + now apply payment_where_spec.
  - intros (p & I & W & C & M). exists (set_ p). split.
    + apply in_map, filter_In. auto.
    + apply andb_true_iff. split.
      * now apply payment_status_eqb_eq.
      * now apply payment_where_spec.
Qed.

(** C2: an UPDATE on payments, with the trigger bound to it.  Row by row over
    user_memberships: a row of the same user and plan as some rewritten
    payments row whose new status is completed becomes active; every other row
    is left as it is; no column but status ever changes.  So an UPDATE none of
    whose rewritten rows has the new status completed changes no
    user_memberships row. *)
Theorem payment_update_activates_matching :
  forall (where_ : payments_row -> bool) (set_ : payments_row -> payments_row)
         (db : database),
    Forall2 (fun r r' =>
               same_except_status r r' /\
               ((exists p, In p (payments db) /\ where_ p = true /\
                           pay_status (set_ p) = completed /\
                           same_user_and_plan (set_ p) r) ->
                um_status r' = active) /\
               (~ (exists p, In p (payments db) /\ where_ p = true /\
                             pay_status (set_ p) = completed /\
                             same_user_and_plan (set_ p) r) ->
                r' = r))
            (user_memberships db)
            (user_memberships (update_payments where_ set_ db)) /\
    ((forall p, In p (payments db) -> where_ p = true ->
                pay_status (set_ p) <> completed) ->
     user_memberships (update_payments where_ set_ db) = user_memberships db).
Proof.
  intros where_ set_ db. unfold update_payments. simpl.
  rewrite fired_triggers_as_map. split.
  - induction (user_memberships db) as [|r tbl IH]; simpl; constructor; auto.
    destruct (touched _ r) eqn:T.
    + split; [apply same_except_status_set|]. split; [reflexivity|].
      intros N. exfalso. apply N. now apply touched_by_update.
    + split; [apply same_except_status_refl|]. split; [|reflexivity].
      intros E. apply touched_by_update in E. congruence.
  - intros N. rewrite <- (map_id (user_memberships db)) at 2.
    apply map_ext. intros r. destruct (touched _ r) eqn:T; [|reflexivity].
    apply touched_by_update in T. destruct T as (p & I & W & C & _).
    exfalso. exact (N p I W C).
Qed.

Lemma payment_update_witness :
  user_memberships
    (update_payments (fun p => String.eqb (pay_id p) "pay-a1")
       (Examples.set_pay_status completed) Examples.arrears)
  = [Examples.member "m1" "a1" 30; Examples.member "m2" "a2" 31]
  /\ user_memberships
       (update_payments (fun p => String.eqb (pay_id p) "pay-a1")
          (Examples.set_pay_status failed) Examples.arrears)
     = user_memberships Examples.arrears.
Proof.
  split; [reflexivity|].
  apply (proj2 (payment_update_activates_matching
                  (fun p => String.eqb (pay_id p) "pay-a1")
                  (Examples.set_pay_status failed) Examples.arrears)).
  intros p _ _. discriminate.
Defined.

(** C9: the payment trigger is bound to UPDATE only and looks at the new status
    only.  Inserting a payment, completed or not, leaves user_memberships as it
    was.  An UPDATE that rewrites a payments row to a row whose status is
    completed (whatever the status was before) leaves every membership row of
    that user and plan active, whatever its status was, and changes no column
    but status. *)
Theorem payment_trigger_on_update_only :
  forall (db : database),
    (forall NEW : payments_row,
        user_memberships (insert_payment NEW db) = user_memberships db) /\
    (forall (where_ : payments_row -> bool) (set_ : payments_row -> payments_row)
            (p : payments_row),
        In p (payments db) -> where_ p = true ->
        pay_status (set_ p) = completed ->
        Forall2 (fun r r' =>
                   same_except_status r r' /\
                   (same_user_and_plan (set_ p) r -> um_status r' = active))
                (user_memberships db)
                (user_memberships (update_payments where_ set_ db))).
Proof.
  intros db. split; [reflexivity|].
  intros where_ set_ p I W C. unfold update_payments. simpl.
  rewrite fired_triggers_as_map.
  assert (F : In (set_ p) (map set_ (filter where_ (payments db)))).
  { apply in_map, filter_In. auto. }
  induction (user_memberships db) as [|r tbl IH]; simpl; constructor; auto.
  destruct (touched _ r) eqn:T.
  - split; [apply same_except_status_set | reflexivity].
  - split; [apply same_except_status_refl|]. intros S.
    rewrite (touched_by _ _ _ F C S) in T. discriminate.
Qed.

Lemma payment_trigger_on_update_only_witness :
  user_memberships
    (insert_payment (Examples.payment "a1" completed)
       (with_user_memberships empty_database [Examples.lapsed]))
  = [Examples.lapsed]
  /\ user_memberships
       (update_payments (fun _ => true) (fun p => p)
          (insert_payment (Examples.payment "a1" completed)
             (with_user_memberships empty_database [Examples.lapsed])))
     = [Examples.member "m1" "a1" 30]
  /\ Forall2 (fun r r' =>
                same_except_status r r' /\
                (same_user_and_plan (Examples.payment "a1" completed) r ->
                 um_status r' = active))
             [Examples.lapsed]
             (user_memberships
                (update_payments (fun _ => true) (fun p => p)
                   (insert_payment (Examples.payment "a1" completed)
                      (with_user_memberships empty_database [Examples.lapsed])))).
Proof.
  split; [reflexivity|]. split; [reflexivity|].
  apply (proj2 (payment_trigger_on_update_only
                  (insert_payment (Examples.payment "a1" completed)
                     (with_user_memberships empty_database [Examples.lapsed])))
               (fun _ => true) (fun p => p) (Examples.payment "a1" completed)).
  - simpl. left. reflexivity.
  - reflexivity.
  - reflexivity.
Defined.

(** ** Trainer capacity *)

Lemma count_active_app (tid : option uuid) (l1 l2 : list user_memberships_row) :
  count_active tid (l1 ++ l2) = count_active tid l1 + count_active tid l2.
Proof.
  unfold count_active. rewrite filter_app, length_app. lia.
Qed.

Lemma trainer_where_same (t : uuid) (r : user_memberships_row) :
  trainer_where (Some t) r = true -> um_trainer_id r = Some t.
Proof.
  unfold trainer_where. rewrite is_true_and, andb_true_iff, sql_eq_true.
  intros [(x & E1 & E2) _]. congruence.
Qed.

(** C1, as the code has it: the capacity check guards INSERT.  An insert naming
    a trainer who already has ten or more active memberships is aborted with
    the capacity exception, and an insert that goes through never takes a
    trainer who had at most ten active memberships past ten. *)
Theorem trainer_capacity_checked_on_insert :
  forall (NEW : user_memberships_row) (db : database) (t : uuid),
    (um_trainer_id NEW = Some t ->
     10 <= active_of t (user_memberships db) ->
     insert_user_membership NEW db
     = Exception "Trainer has reached maximum client capacity") /\
    (forall db' : database,
        insert_user_membership NEW db = Ok db' ->
        active_of t (user_memberships db) <= 10 ->
        active_of t (user_memberships db') <= 10).
Proof.
  intros NEW db t. unfold active_of, insert_user_membership,
    check_trainer_availability. split.
  - intros E L. rewrite E.
    destruct (Z.leb_spec 10 (count_active (Some t) (user_memberships db)));
      [reflexivity | lia].
  - intros db'.
    destruct (Z.leb_spec 10 (count_active (um_trainer_id NEW) (user_memberships db)))
      as [G|G]; [discriminate|].
    intros O B. injection O as <-. simpl. rewrite count_active_app.
    unfold count_active at 2. simpl.
    destruct (trainer_where (Some t) NEW) eqn:W; simpl; [|lia].
    apply trainer_where_same in W. rewrite W in G. lia.
Qed.

Lemma trainer_capacity_witness :
  active_of "coach" (user_memberships Examples.ten_active) = 10
  /\ insert_user_membership (Examples.member "m11" "c1" 60) Examples.ten_active
     = Exception "Trainer has reached maximum client capacity"
  /\ active_of "coach"
       (user_memberships
          (with_user_memberships empty_database [Examples.member "m1" "a1" 30]))
     <= 10.
Proof.
  split; [reflexivity|]. split.
  - apply (proj1 (trainer_capacity_checked_on_insert
                    (Examples.member "m11" "c1" 60) Examples.ten_active "coach")).
    + reflexivity.
    + vm_compute. discriminate.
  - apply (proj2 (trainer_capacity_checked_on_insert
                    (Examples.member "m1" "a1" 30) empty_database "coach")).
    + reflexivity.
    + vm_compute. discriminate.
Defined.

(** C1, as stated, fails: after the session [Examples.overbooking] (every
    statement of which completes or is aborted by the triggers of the
    migration) trainer coach has eleven active memberships. *)
Lemma trainer_capacity_exceeded_by_payment :
  reachable (run Examples.overbooking)
  /\ active_of "coach" (user_memberships (run Examples.overbooking)) = 11.
Proof.
  split.
  - exists Examples.overbooking. reflexivity.
  - vm_compute. reflexivity.
Qed.

(** ** The audit trigger on users *)

Lemma insert_user_logged (uid : option uuid) (NEW : users_row) (db : database) :
  audit_logs (insert_user uid NEW db)
  = (audit_logs db ++
     [ {| al_table_name := "users"; al_record_id := Some (u_id NEW);
          al_action := "INSERT"; al_old_data := None; al_new_data := Some NEW;
          al_changed_by := uid |} ])%list.
Proof. reflexivity. Qed.

(** C4 at a DELETE: the one audit row written for the deleted user alice has a
    NULL record_id, because the trigger takes the id from NEW, which is NULL
    in a DELETE trigger; the id survives only inside old_data. *)
Theorem delete_user_logged_without_record_id :
  audit_logs
    (delete_users (Some "root") (fun r => String.eqb (u_id r) "alice")
                  Examples.only_alice)
  = [ {| al_table_name := "users"; al_record_id := None;
         al_action := "DELETE"; al_old_data := Some Examples.alice;
         al_new_data := None; al_changed_by := Some "root" |} ].
Proof. reflexivity. Qed.

(* ===================================================================== *)
(** * Properties of the form schemas                                       *)
(* ===================================================================== *)
Import Js Supabase.

Section Validation.
Context `{Runtime}.

Lemma accepts_no_issues (shape : Zod.z_object) (props : list (string * value)) :
  Zod.accepts shape (Obj props) <->
  Forall (fun field => Zod.issues_of (snd field) (lookup props (fst field)) = [])
         shape.
Proof.
  unfold Zod.accepts, Zod.parse.
  assert (E : Zod.object_issues shape props = [] <->
              Forall (fun field =>
                        Zod.issues_of (snd field) (lookup props (fst field)) = [])
                     shape).
  { unfold Zod.object_issues. induction shape as [|[key s] shape IH]; simpl.
    - split; auto.
    - rewrite Forall_cons_iff. simpl. rewrite <- IH. split.
      + intros E. apply app_eq_nil in E. destruct E as [E1 E2]. split; auto.
        now apply map_eq_nil in E1.
      + intros [E1 E2]. now rewrite E1, E2. }
  rewrite <- E. destruct (Zod.object_issues shape props); split.
  - reflexivity.
  - intros _. eauto.
  - intros [o D]. discriminate.
  - discriminate.
Qed.

Lemma email_accepted (s msg : string) :
  Zod.issues_of (Zod.z_string [Zod.email msg]) (Str s) = [] <->
  email_regex_test s = true.
Proof.
  simpl. destruct (email_regex_test s); simpl; split; intros E; congruence.
Qed.

Lemma min_accepted (n : nat) (s msg : string) :
  Zod.issues_of (Zod.z_string [Zod.min n msg]) (Str s) = [] <->
  (n <= utf16_length s)%nat.
Proof.
  cbn [Zod.issues_of flat_map Zod.string_issue].
  destruct (Nat.leb_spec n (utf16_length s)); simpl; split; intros E;
    try congruence; try lia.
Qed.

Lemma optional_string_accepted (o : option string) :
  Zod.issues_of (Zod.z_optional (Zod.z_string [])) (supplied Str o) = [].
Proof. destruct o; reflexivity. Qed.

Lemma optional_date_accepted (o : option (option Z)) :
  Zod.issues_of (Zod.z_optional Zod.z_date) (supplied Date o) = [] <->
  (forall d, o = Some d -> d <> None).
Proof.
  destruct o as [[t|]|]; simpl; split.
  - intros _ d [= <-]. discriminate.
  - reflexivity.
  - discriminate.
  - intros V. now specialize (V _ eq_refl).
  - intros _ d D. discriminate.
  - reflexivity.
Qed.

Lemma optional_positive_accepted (o : option number) (msg : string) :
  Zod.issues_of (Zod.z_optional (Zod.z_number [Zod.positive msg]))
                (supplied Num o) = [] <->
  (forall n, o = Some n -> strictly_positive n).
Proof.
  destruct o as [[q|]|]; simpl.
  - destruct (Qle_bool q 0) eqn:L; simpl; split.
    + discriminate.
    + intros P. specialize (P _ eq_refl). simpl in P.
      apply Qle_bool_iff in L. exfalso. revert P. now apply Qle_not_lt.
    + intros _ n [= <-]. simpl. apply Qnot_le_lt. intros C.
      apply Qle_bool_iff in C. congruence.
    + reflexivity.
  - split; [discriminate|]. intros P. now specialize (P _ eq_refl).
  - split; [|reflexivity]. intros _ n D. discriminate.
Qed.

(** C7, amended: the login schema accepts a form exactly when its email passes
    the email test and its password has a length (in UTF-16 code units, as
    the length of a JavaScript string) of at least 8; the registration schema
    accepts an input exactly when, besides, the full name has a length of at
    least 2, height and weight, whenever supplied, are strictly positive
    numbers, and the date of birth, whenever supplied, is a valid date; phone,
    emergency contact and medical conditions may be supplied or left out. *)
Theorem validation_accepts_exactly_well_formed :
  (forall formData : LoginPage.FormData,
      Zod.accepts Zod.loginSchema (LoginPage.form_value formData) <->
      email_regex_test (LoginPage.email formData) = true /\
      (8 <= utf16_length (LoginPage.password formData))%nat) /\
  (forall i : RegistrationInput,
      Zod.accepts Zod.registrationSchema (registration_value i) <->
      email_regex_test (in_email i) = true /\
      (8 <= utf16_length (in_password i))%nat /\
      (2 <= utf16_length (in_fullName i))%nat /\
      (forall h, in_height i = Some h -> strictly_positive h) /\
      (forall w, in_weight i = Some w -> strictly_positive w) /\
      (forall d, in_dateOfBirth i = Some d -> d <> None)).
Proof.
  split.
  - intros formData. unfold LoginPage.form_value. rewrite accepts_no_issues.
    unfold Zod.loginSchema. rewrite !Forall_cons_iff, Forall_nil_iff.
    cbn [fst snd lookup String.eqb Ascii.eqb Bool.eqb].
    rewrite email_accepted, min_accepted. tauto.
  - intros i. unfold registration_value. rewrite accepts_no_issues.
    unfold Zod.registrationSchema. rewrite !Forall_cons_iff, Forall_nil_iff.
    cbn [fst snd lookup String.eqb Ascii.eqb Bool.eqb].
    rewrite email_accepted, !min_accepted, !optional_string_accepted,
      optional_date_accepted, !optional_positive_accepted.
    tauto.
Qed.
End Validation.

(** C7 without the condition on the date of birth fails on an Invalid Date:
    the email passes the email test, the password has 13 characters, the full
    name 5, neither height nor weight is supplied, and the schema still
    refuses the input. *)
Lemma registration_rejects_invalid_date :
  @email_regex_test Scenarios.runtime (in_email Cases.misdated) = true
  /\ (8 <= utf16_length (in_password Cases.misdated))%nat
  /\ (2 <= utf16_length (in_fullName Cases.misdated))%nat
  /\ in_height Cases.misdated = None
  /\ in_weight Cases.misdated = None
  /\ @Zod.parse Scenarios.runtime Zod.registrationSchema
       (registration_value Cases.misdated)
     = inl (ZodError [("dateOfBirth", "Invalid date")]).
Proof. repeat split; try reflexivity; vm_compute; lia. Qed.

Example login_schema_runs :
  @Zod.parse Scenarios.runtime Zod.loginSchema
     (LoginPage.form_value Scenarios.login_form)
  = inr [("email", Str "alice@fithub.test"); ("password", Str "correct horse")]
  /\ @Zod.parse Scenarios.runtime Zod.loginSchema
       (Obj [("email", Str "alice"); ("password", Str "short")])
     = inl (ZodError [("email", "Invalid email address");
                      ("password", "Password must be at least 8 characters")]).
Proof. split; reflexivity. Qed.

Example registration_schema_rejects_zero_height :
  @Zod.parse Scenarios.runtime Zod.registrationSchema
     (registration_value
        {| in_email := "alice@fithub.test"; in_password := "correct horse";
           in_fullName := "Alice"; in_phone := None;
           in_height := Some (Fin 0); in_weight := None;
           in_dateOfBirth := None; in_emergencyContact := None;
           in_medicalConditions := None |})
  = inl (ZodError [("height", "Height must be positive")]).
Proof. reflexivity. Qed.

(* ===================================================================== *)
(** * Properties of the handlers                                           *)
(* ===================================================================== *)

Ltac run_handler :=
  cbn [bind lift emit call ret throw try_catch_finally effects fst snd app
       requests dialogs flat_map].


Section Handlers.
Context `{Runtime} (supabase : Client).

(** ** The traces of the three inspected errors *)




(** ** No request is sent twice *)



(** ** Calls whose error nobody reads *)





(** C10: once the form is valid, sign-up answers without an error and the
    insert into profiles answers without an error, the handler sends the
    three requests, shows the success dialog, navigates to /login and clears
    its loading flag, whatever the insert into users answered. *)
Theorem registration_done_without_users_row :
  forall (formData : RegisterPage.FormData)
         (validatedData : list (string * value)),
    Zod.parse Zod.registrationSchema (RegisterPage.form_value formData)
    = inr validatedData ->
    auth_error (signUp supabase (RegisterPage.credentials validatedData)) = None ->
    error (profiles_insert supabase
             (RegisterPage.profiles_row
                (signUp supabase (RegisterPage.credentials validatedData))
                validatedData)) = None ->
    effects (RegisterPage.handleSubmit supabase formData)
    = [ PreventDefault;
        SetState (RegisterPage.setLoading true);
        Request (auth_signUp (RegisterPage.credentials validatedData));
        ConsoleLog "User ID:";
        Request (from_insert "users"
                   [RegisterPage.users_row
                      (signUp supabase (RegisterPage.credentials validatedData))]);
        Request (from_insert "profiles"
                   [RegisterPage.profiles_row
                      (signUp supabase (RegisterPage.credentials validatedData))
                      validatedData]);
        SwalFire "success" "Registration Successful"
                 "Welcome to FitHub! You can now log in.";
        Navigate "/login";
        SetState (RegisterPage.setLoading false) ].
Proof.
  intros formData validatedData P A I.
  unfold RegisterPage.handleSubmit. rewrite P. run_handler.
  rewrite A. run_handler. rewrite I. reflexivity.
Qed.
End Handlers.



Lemma registration_done_witness :
  error (users_insert
           (Scenarios.service (Some Scenarios.alice)
              (Some "new row violates row-level security policy") None)
           (Obj [("id", Str "alice"); ("role", Str "client")]))
  = Some "new row violates row-level security policy"
  /\ effects (@RegisterPage.handleSubmit Scenarios.runtime
                (Scenarios.service (Some Scenarios.alice)
                   (Some "new row violates row-level security policy") None)
                Scenarios.registration_form)
     = [ PreventDefault;
         SetState (RegisterPage.setLoading true);
         Request (auth_signUp (Obj [("email", Str "alice@fithub.test");
                                    ("password", Str "correct horse")]));
         ConsoleLog "User ID:";
         Request (from_insert "users"
                    [Obj [("id", Str "alice"); ("role", Str "client")]]);
         Request (from_insert "profiles"
                    [Obj [("id", Str "alice"); ("full_name", Str "Alice");
                          ("email", Str "alice@fithub.test");
                          ("phone", Str ""); ("height", Num (Fin 180));
                          ("weight", Undefined);
                          ("date_of_birth", Date (Some 631152000000));
                          ("emergency_contact", Str "");
                          ("medical_conditions", Str "")]]);
         SwalFire "success" "Registration Successful"
                  "Welcome to FitHub! You can now log in.";
         Navigate "/login";
         SetState (RegisterPage.setLoading false) ].
Proof.
  split; [reflexivity|].
  exact (registration_done_without_users_row
           (H := Scenarios.runtime)
           (Scenarios.service (Some Scenarios.alice)
              (Some "new row violates row-level security policy") None)
           Scenarios.registration_form _ eq_refl eq_refl eq_refl).
Defined.

(* ===================================================================== *)
(** * Properties of the dashboards                                         *)
(* ===================================================================== *)

Section Ordering.
Context {A : Type} (key : A -> Z).

Lemma insert_ordered_In (asc : bool) (x y : A) (l : list A) :
  In y (Postgrest.insert_ordered key asc x l) <-> y = x \/ In y l.
Proof.
  induction l as [|z l IH]; simpl.
  - intuition.
  - destruct (Postgrest.before key asc x z); simpl; [intuition|].
    rewrite IH. intuition.
Qed.

Lemma order_by_In (asc : bool) (y : A) (l : list A) :
  In y (Postgrest.order_by key asc l) <-> In y l.
Proof.
  induction l as [|z l IH]; simpl; [reflexivity|].
  rewrite insert_ordered_In, IH. intuition.
Qed.

Lemma insert_ordered_sorted (x : A) (l : list A) :
  StronglySorted (later_first key) l ->
  StronglySorted (later_first key) (Postgrest.insert_ordered key false x l).
Proof.
  induction 1 as [|z l S IH F]; simpl.
  - repeat constructor.
  - unfold Postgrest.before.
    destruct (Z.leb_spec (key z) (key x)) as [L|L].
    + constructor; [now constructor|]. constructor; [exact L|].
      eapply Forall_impl; [|exact F]. unfold later_first. intros; lia.
    + constructor; [exact IH|]. apply Forall_forall. intros y I.
      apply insert_ordered_In in I. destruct I as [->|I].
      * unfold later_first. lia.
      * rewrite Forall_forall in F. now apply F.
Qed.

Lemma order_by_sorted (l : list A) :
  StronglySorted (later_first key) (Postgrest.order_by key false l).
Proof.
  induction l as [|x l IH]; simpl; [constructor|].
  now apply insert_ordered_sorted.
Qed.

Lemma firstn_subset (n : nat) (l : list A) (y : A) :
  In y (firstn n l) -> In y l.
Proof.
  intros I. apply In_nth_error in I. destruct I as [k I].
  rewrite nth_error_firstn in I. destruct (k <? n)%nat; [|discriminate].
  eapply nth_error_In; eauto.
Qed.

Lemma firstn_sorted (n : nat) (l : list A) :
  StronglySorted (later_first key) l ->
  StronglySorted (later_first key) (firstn n l).
Proof.
  intros S. revert n. induction S as [|x l S IH F]; intros [|n]; simpl;
    try constructor; auto.
  apply Forall_forall. intros y I. rewrite Forall_forall in F.
  apply F. now apply firstn_subset in I.
Qed.

Lemma sorted_along {B} (kb : B -> Z) (l : list A) (l' : list B) :
  Forall2 (fun a b => kb b = key a) l l' ->
  StronglySorted (later_first key) l -> StronglySorted (later_first kb) l'.
Proof.
  induction 1 as [|a b l l' E F IH]; intros S; [constructor|].
  inversion S as [|? ? S' Fa]; subst. constructor; auto.
  clear - E F Fa. induction F as [|a' b' l l' E' F IH]; constructor.
  - inversion Fa; subst. unfold later_first in *. lia.
  - apply IH. now inversion Fa.
Qed.
End Ordering.

Lemma map_throwing_inr {A B} (f : A -> exn + B) (l : list A) :
  forall bs, map_throwing f l = inr bs -> Forall2 (fun a b => f a = inr b) l bs.
Proof.
  induction l as [|a l IH]; simpl; intros bs E.
  - injection E as <-. constructor.
  - destruct (f a) as [e|b] eqn:Fa; [discriminate|].
    destruct (map_throwing f l) as [e|bs'] eqn:Fl; [discriminate|].
    injection E as <-. constructor; auto.
Qed.

Lemma user_workouts_query_In (db : database) (uid : uuid) (r : user_workouts_row) :
  In r (Postgrest.user_workouts_query db uid) ->
  In r (user_workouts db) /\ uw_user_id r = Some uid.
Proof.
  unfold Postgrest.user_workouts_query. intros I.
  apply firstn_subset, order_by_In, filter_In in I. destruct I as [I1 I2].
  split; auto. apply sql_eq_true in I2. destruct I2 as (x & E1 & E2). congruence.
Qed.

Lemma embed_workout_some (db : database) (r : user_workouts_row)
    (e : workouts_embed) :
  Postgrest.embed_workout db r = Some e ->
  exists w, In w (Sql.workouts db) /\ uw_workout_id r = Some (w_id w) /\
            Supabase.w_name e = Sql.w_name w.
Proof.
  unfold Postgrest.embed_workout.
  destruct (uw_workout_id r) as [wid|]; [|discriminate].
  destruct (find _ (Sql.workouts db)) as [w|] eqn:F; [|discriminate].
  simpl. intros [= <-]. apply find_some in F. destruct F as [I E].
  apply String.eqb_eq in E. exists w. simpl. repeat split; auto. congruence.
Qed.

Lemma rendered_rows (db : database) (uid : uuid) (rows : list user_workouts_row)
    (ws : list ClientDashboard.Workout) :
  Forall2 (fun a b => ClientDashboard.to_workout a = inr b)
          (map (fun r => {| Supabase.workouts := Postgrest.embed_workout db r;
                            assigned_date := uw_assigned_date r;
                            completed_date := uw_completed_date r |}) rows) ws ->
  Forall2 (fun r item =>
             ClientDashboard.item_assigned item = uw_assigned_date r /\
             ((In r (user_workouts db) /\ uw_user_id r = Some uid) ->
              shows db uid item))
          rows (map ClientDashboard.render_workout ws).
Proof.
  revert ws. induction rows as [|r rows IH]; intros ws F;
    inversion F as [|a b l l' T F']; subst; simpl; constructor; auto.
  unfold ClientDashboard.to_workout in T. simpl in T.
  destruct (Postgrest.embed_workout db r) as [e|] eqn:E; [|discriminate].
  injection T as <-. simpl. split; [reflexivity|].
  intros [I U]. apply embed_workout_some in E. destruct E as (w & Iw & Ew & En).
  exists r, w. simpl. repeat split; auto;
    destruct (uw_completed_date r); intros; congruence.
Qed.

(** C8: for a signed-in user the dashboard leaves the loading screen and lists
    at most 5 items, latest assignment first, each of them a workout assigned
    to that user and labelled Completed exactly when the assignment has a
    completion date and Pending otherwise; when the membership query has no
    row for the user, the page reads No active membership and shows no expiry
    date. *)
Theorem client_dashboard_recent_workouts :
  forall (base : Client) (db : database) (user : User),
    auth_user (getUser base) = Some user ->
    exists p : ClientDashboard.page,
      ClientDashboard.render
        (ClientDashboard.mounted (Postgrest.on_database base db))
      = ClientDashboard.Page p /\
      (List.length (ClientDashboard.recent_workouts p) <= 5)%nat /\
      StronglySorted (later_first ClientDashboard.item_assigned)
                     (ClientDashboard.recent_workouts p) /\
      Forall (shows db (id user)) (ClientDashboard.recent_workouts p) /\
      (data (active_memberships_single base (id user)) = None ->
       ClientDashboard.membership_text p = "No active membership" /\
       ClientDashboard.expires p = None).
Proof.
  intros base db user U.
  unfold ClientDashboard.mounted, ClientDashboard.fetchUserData. run_handler.
  change (getUser (Postgrest.on_database base db)) with (getUser base).
  rewrite U. run_handler.
  change (data (user_workouts_recent (Postgrest.on_database base db) (id user)))
    with (Some (map (fun r => {| Supabase.workouts := Postgrest.embed_workout db r;
                                 assigned_date := uw_assigned_date r;
                                 completed_date := uw_completed_date r |})
                    (Postgrest.user_workouts_query db (id user)))).
  change (active_memberships_single (Postgrest.on_database base db))
    with (active_memberships_single base).
  run_handler.
  destruct (map_throwing ClientDashboard.to_workout _) as [e|ws] eqn:M;
    run_handler; simpl; eexists; (split; [reflexivity|]); simpl.
  - split; [lia|]. split; [constructor|]. split; [constructor|].
    intros D. rewrite D. split; reflexivity.
  - apply map_throwing_inr in M.
    pose proof (rendered_rows db (id user) _ _ M) as F.
    split; [|split; [|split]].
    + rewrite <- (Forall2_length F). unfold Postgrest.user_workouts_query.
      rewrite length_firstn. lia.
    + apply (sorted_along uw_assigned_date ClientDashboard.item_assigned
               (Postgrest.user_workouts_query db (id user))).
      * eapply Forall2_impl; [|exact F]. intros a b [E _]. exact E.
      * apply firstn_sorted, order_by_sorted.
    + assert (Q : Forall (fun r => In r (user_workouts db) /\
                                   uw_user_id r = Some (id user))
                         (Postgrest.user_workouts_query db (id user))).
      { apply Forall_forall. intros r. apply user_workouts_query_In. }
      revert Q. clear - F. induction F as [|r item l l' [_ S] F IH];
        intros Q; constructor; inversion Q; subst; auto.
    + intros D. rewrite D. split; reflexivity.
Qed.

Lemma client_dashboard_witness :
  ClientDashboard.render
    (ClientDashboard.mounted
       (Postgrest.on_database (Scenarios.service (Some Scenarios.alice) None None)
                              Scenarios.gym))
  = ClientDashboard.Page
      {| ClientDashboard.membership_text := "No active membership";
         ClientDashboard.expires := None;
         ClientDashboard.trainer_text := "No trainer assigned";
         ClientDashboard.next_payment := None;
         ClientDashboard.workouts_count := 5;
         ClientDashboard.recent_workouts :=
           [ {| ClientDashboard.item_name := "Squats";
                ClientDashboard.item_assigned := 60;
                ClientDashboard.item_label := "Pending" |};
             {| ClientDashboard.item_name := "Squats";
                ClientDashboard.item_assigned := 50;
                ClientDashboard.item_label := "Completed" |};
             {| ClientDashboard.item_name := "Squats";
                ClientDashboard.item_assigned := 40;
                ClientDashboard.item_label := "Pending" |};
             {| ClientDashboard.item_name := "Squats";
                ClientDashboard.item_assigned := 30;
                ClientDashboard.item_label := "Pending" |};
             {| ClientDashboard.item_name := "Squats";
                ClientDashboard.item_assigned := 20;
                ClientDashboard.item_label := "Completed" |} ] |}
  /\ exists p : ClientDashboard.page,
       ClientDashboard.render
         (ClientDashboard.mounted
            (Postgrest.on_database
               (Scenarios.service (Some Scenarios.alice) None None)
               Scenarios.gym))
       = ClientDashboard.Page p /\
       (List.length (ClientDashboard.recent_workouts p) <= 5)%nat /\
       StronglySorted (later_first ClientDashboard.item_assigned)
                      (ClientDashboard.recent_workouts p) /\
       Forall (shows Scenarios.gym "alice") (ClientDashboard.recent_workouts p) /\
       (data (active_memberships_single
                (Scenarios.service (Some Scenarios.alice) None None) "alice")
        = None ->
        ClientDashboard.membership_text p = "No active membership" /\
        ClientDashboard.expires p = None).
Proof.
  split; [reflexivity|].
  exact (client_dashboard_recent_workouts
           (Scenarios.service (Some Scenarios.alice) None None)
           Scenarios.gym Scenarios.alice eq_refl).
Defined.

Lemma count_of_rows_undefined (rows : option (list id_row)) :
  or (get_opt (to_js rows) "count") zero = zero.
Proof. destruct rows as [rows|]; reflexivity. Qed.

(** Whatever the service answers, the three counters of the admin dashboard
    stay 0: [count] is read from [data], not from the response. *)
Lemma admin_counts_always_zero (supabase : Client) :
  AdminDashboard.totalMembers
    (AdminDashboard.stats (AdminDashboard.mounted supabase)) = zero /\
  AdminDashboard.activeMembers
    (AdminDashboard.stats (AdminDashboard.mounted supabase)) = zero /\
  AdminDashboard.upcomingRenewals
    (AdminDashboard.stats (AdminDashboard.mounted supabase)) = zero.
Proof.
  unfold AdminDashboard.mounted, AdminDashboard.fetchDashboardData. run_handler.
  rewrite !count_of_rows_undefined.
  destruct (data (active_memberships_recent supabase)) as [rows|];
    [destruct (map_throwing AdminDashboard.to_member rows)|];
    run_handler; simpl; auto.
Qed.

(** C6 on the database [Scenarios.gym], read on day 100: one profile, one
    active membership, one upcoming renewal and 50 of completed payments, yet
    the dashboard shows 0 members, 0 active, 0 renewals (and a revenue of
    50). *)
Theorem admin_dashboard_counts_stay_zero :
  AdminDashboard.stats
    (AdminDashboard.mounted
       (Postgrest.on_database (Scenarios.service None None None) Scenarios.gym))
  = {| AdminDashboard.totalMembers := zero;
       AdminDashboard.activeMembers := zero;
       AdminDashboard.totalRevenue := Num (Fin 50);
       AdminDashboard.upcomingRenewals := zero |}
  /\ List.length (profiles Scenarios.gym) = 1%nat
  /\ List.length (filter (fun r => membership_status_eqb (um_status r) active)
                         (user_memberships Scenarios.gym)) = 1%nat
  /\ List.length (Postgrest.upcoming_renewals 100 Scenarios.gym) = 1%nat.
Proof. vm_compute. repeat split. Qed.

(* ===================================================================== *)
(** * Further properties of the migration                                  *)
(* ===================================================================== *)
Import Notions.

Lemma expiry_where_spec (d : date) (r : user_memberships_row) :
  update_membership_status_where d r = true <->
  um_end_date r < d /\ um_status r = active.
Proof.
  unfold update_membership_status_where. rewrite is_true_and. simpl.
  destruct (Z.ltb_spec (um_end_date r) d) as [L|L];
    destruct (um_status r); simpl; split; intros E; try discriminate;
    try (split; [lia | reflexivity]);
    destruct E as [? ?]; try discriminate; lia.
Qed.

Lemma expiry_postcondition (d : date) (tbl : list user_memberships_row) :
  Forall (fun r => um_status r = active -> d <= um_end_date r)
         (update_membership_status d tbl).
Proof.
  unfold update_membership_status. apply Forall_forall. intros r I.
  apply in_map_iff in I. destruct I as (r0 & E & _). subst r.
  destruct (update_membership_status_where d r0) eqn:W; simpl.
  - discriminate.
  - intros A. destruct (Z.lt_ge_cases (um_end_date r0) d) as [C|C]; [|exact C].
    assert (T : update_membership_status_where d r0 = true)
      by (apply expiry_where_spec; auto).
    congruence.
Qed.

(** X1: once the expiry procedure has run for a date, no active membership is
    past its end date, and running it again for the same or an earlier date
    changes nothing. *)
Theorem expiry_settles :
  forall (d d' : date) (tbl : list user_memberships_row),
    d' <= d ->
    Forall (fun r => um_status r = active -> d <= um_end_date r)
           (update_membership_status d tbl) /\
    update_membership_status d' (update_membership_status d tbl)
    = update_membership_status d tbl.
Proof.
  intros d d' tbl L. split; [apply expiry_postcondition|].
  unfold update_membership_status. rewrite map_map. apply map_ext. intros r.
  destruct (update_membership_status_where d r) eqn:W.
  - destruct (update_membership_status_where d' _); reflexivity.
  - destruct (update_membership_status_where d' r) eqn:W'; [|reflexivity].
    apply expiry_where_spec in W'. destruct W' as [C A].
    assert (T : update_membership_status_where d r = true)
      by (apply expiry_where_spec; split; [lia|auto]).
    congruence.
Qed.

Lemma expiry_settles_witness :
  20 <= 31
  /\ Forall (fun r => um_status r = active -> 31 <= um_end_date r)
            (update_membership_status 31
               [Examples.member "m1" "a1" 30; Examples.member "m2" "a2" 31])
  /\ update_membership_status 20
       (update_membership_status 31
          [Examples.member "m1" "a1" 30; Examples.member "m2" "a2" 31])
     = update_membership_status 31
         [Examples.member "m1" "a1" 30; Examples.member "m2" "a2" 31].
Proof.
  split; [lia|].
  apply (expiry_settles 31 20
           [Examples.member "m1" "a1" 30; Examples.member "m2" "a2" 31]).
  lia.
Defined.

Lemma count_active_cons (tid : option uuid) (r : user_memberships_row)
    (tbl : list user_memberships_row) :
  count_active tid (r :: tbl)
  = (if trainer_where tid r then 1 else 0) + count_active tid tbl.
Proof.
  change (r :: tbl) with ([r] ++ tbl)%list. rewrite count_active_app.
  unfold count_active at 1. simpl. now destruct (trainer_where tid r).
Qed.

Lemma trainer_where_active (tid : option uuid) (r : user_memberships_row) :
  trainer_where tid r = true -> um_status r = active.
Proof.
  unfold trainer_where. rewrite is_true_and, andb_true_iff.
  intros [_ A]. destruct (um_status r); [reflexivity | discriminate..].
Qed.

Lemma trainer_where_set_active (tid : option uuid) (r : user_memberships_row) :
  trainer_where tid r = true -> trainer_where tid (set_um_status r active) = true.
Proof.
  unfold trainer_where. rewrite !is_true_and, !andb_true_iff.
  intros [A _]. split; [exact A | reflexivity].
Qed.

Lemma expiry_count_le (d : date) (tid : option uuid)
    (tbl : list user_memberships_row) :
  count_active tid (update_membership_status d tbl) <= count_active tid tbl.
Proof.
  unfold update_membership_status.
  induction tbl as [|r tbl IH]; simpl; [lia|]. rewrite !count_active_cons.
  destruct (update_membership_status_where d r) eqn:W.
  - assert (F : trainer_where tid (set_um_status r expired) = false).
    { destruct (trainer_where tid (set_um_status r expired)) eqn:T; auto.
      apply trainer_where_active in T. discriminate. }
    rewrite F. destruct (trainer_where tid r); lia.
  - destruct (trainer_where tid r); lia.
Qed.

(** X2: the expiry procedure keeps the rows and their ids and never raises the
    number of active memberships of any trainer. *)
Theorem expiry_only_lowers :
  forall (d : date) (tid : option uuid) (tbl : list user_memberships_row),
    map um_id (update_membership_status d tbl) = map um_id tbl /\
    count_active tid (update_membership_status d tbl) <= count_active tid tbl.
Proof.
  intros d tid tbl. split; [|apply expiry_count_le].
  unfold update_membership_status. rewrite map_map. apply map_ext. intros r.
  destruct (update_membership_status_where d r); reflexivity.
Qed.

(** X3: the payment trigger is idempotent, keeps the rows and their ids, and
    never lowers the number of active memberships of any trainer. *)
Theorem payment_trigger_only_raises :
  forall (NEW : payments_row) (tid : option uuid)
         (tbl : list user_memberships_row),
    update_membership_status_on_payment NEW
      (update_membership_status_on_payment NEW tbl)
    = update_membership_status_on_payment NEW tbl /\
    map um_id (update_membership_status_on_payment NEW tbl) = map um_id tbl /\
    count_active tid tbl
    <= count_active tid (update_membership_status_on_payment NEW tbl).
Proof.
  intros NEW tid tbl. rewrite !trigger_as_map. split; [|split].
  - rewrite map_map. apply map_ext. intros r.
    destruct (payment_status_eqb (pay_status NEW) completed && payment_where NEW r)
      eqn:E; [|now rewrite E].
    assert (E' : payment_status_eqb (pay_status NEW) completed
                 && payment_where NEW (set_um_status r active) = true) by exact E.
    rewrite E'. reflexivity.
  - rewrite map_map. apply map_ext. intros r.
    destruct (_ && _); reflexivity.
  - induction tbl as [|r tbl IH]; simpl; [lia|]. rewrite !count_active_cons.
    destruct (_ && _).
    + destruct (trainer_where tid r) eqn:T.
      * rewrite (trainer_where_set_active _ _ T). lia.
      * destruct (trainer_where tid (set_um_status r active)); lia.
    + destruct (trainer_where tid r); lia.
Qed.

Lemma count_active_unassigned (tbl : list user_memberships_row) :
  count_active None tbl = 0.
Proof.
  induction tbl as [|r tbl IH]; [reflexivity|]. rewrite count_active_cons, IH.
  unfold trainer_where. destruct (um_trainer_id r), (um_status r); reflexivity.
Qed.

(** X4: the capacity trigger never refuses a row without a trainer: with
    trainer_id NULL the comparison of the count is never true, the count is 0
    and the trigger returns NEW, however many memberships the table holds and
    whatever their trainers. *)
Theorem unassigned_insert_never_rejected :
  forall (NEW : user_memberships_row) (tbl : list user_memberships_row),
    um_trainer_id NEW = None ->
    count_active (um_trainer_id NEW) tbl = 0 /\
    check_trainer_availability NEW tbl = Ok NEW.
Proof.
  intros NEW tbl E. unfold check_trainer_availability.
  rewrite E, count_active_unassigned. split; reflexivity.
Qed.

Lemma unassigned_insert_witness :
  um_trainer_id Cases.walk_in = None
  /\ count_active (um_trainer_id Cases.walk_in)
       (repeat Cases.walk_in 12 ++ user_memberships Examples.ten_active)%list = 0
  /\ check_trainer_availability Cases.walk_in
       (repeat Cases.walk_in 12 ++ user_memberships Examples.ten_active)%list
     = Ok Cases.walk_in.
Proof.
  split; [reflexivity|].
  exact (unassigned_insert_never_rejected Cases.walk_in
           (repeat Cases.walk_in 12 ++ user_memberships Examples.ten_active)%list
           eq_refl).
Defined.

Lemma flat_map_after_map {A B C} (f : A -> B) (g : B -> list C) (l : list A) :
  flat_map g (map f l) = flat_map (fun a => g (f a)) l.
Proof. induction l as [|a l IH]; simpl; [reflexivity | now rewrite IH]. Qed.

(** X5: running the expiry procedure for a day takes nothing out of the
    upcoming_renewals view read on that day or later. *)
Theorem expiry_keeps_upcoming_renewals :
  forall (d d' : date) (db : database),
    d <= d' ->
    Postgrest.upcoming_renewals d' (call_update_membership_status d db)
    = Postgrest.upcoming_renewals d' db.
Proof.
  intros d d' db L. unfold Postgrest.upcoming_renewals,
    call_update_membership_status, update_membership_status. simpl.
  rewrite flat_map_after_map. apply flat_map_ext. intros um.
  destruct (update_membership_status_where d um) eqn:W; [|reflexivity].
  apply expiry_where_spec in W. destruct W as [C A].
  apply flat_map_ext. intros p. apply flat_map_ext. intros m. simpl.
  destruct (Z.leb_spec d' (um_end_date um)); [lia|].
  destruct (is_true (sql_eq (um_user_id um) (Some (p_id p))));
    destruct (is_true (sql_eq (um_membership_id um) (Some (m_id m))));
    reflexivity.
Qed.

Lemma expiry_keeps_upcoming_renewals_witness :
  31 <= 40
  /\ List.length (Postgrest.upcoming_renewals 40 Cases.club) = 1%nat
  /\ Postgrest.upcoming_renewals 40 (call_update_membership_status 31 Cases.club)
     = Postgrest.upcoming_renewals 40 Cases.club.
Proof.
  split; [lia|]. split; [reflexivity|].
  apply (expiry_keeps_upcoming_renewals 31 40 Cases.club). lia.
Defined.

Lemma active_memberships_stem (db : database) :
  Forall (fun row =>
            exists um, In um (user_memberships db) /\
                       um_id um = Procedures.amv_id row /\
                       um_end_date um = Procedures.amv_end_date row /\
                       um_status um = active)
         (Procedures.active_memberships db).
Proof.
  apply Forall_forall. intros row I.
  unfold Procedures.active_memberships in I.
  apply in_flat_map in I. destruct I as (um & Ium & I).
  apply in_flat_map in I. destruct I as (p & Ip & I).
  apply in_flat_map in I. destruct I as (m & Im & I).
  destruct (_ && _) eqn:C in I; [|contradiction].
  apply andb_true_iff in C. destruct C as [_ A].
  apply membership_status_eqb_eq in A.
  exists um. split; [exact Ium|].
  destruct (filter _ (profiles db)) as [|t ts].
  - destruct I as [<-|[]]. auto.
  - apply in_map_iff in I. destruct I as (t' & <- & _). auto.
Qed.

(** X6: every row of the active_memberships view stems from an active
    membership, and right after the expiry procedure has run for a day the view
    lists no membership that ended before that day. *)
Theorem active_memberships_after_expiry :
  forall (d : date) (db : database),
    Forall (fun row =>
              exists um, In um (user_memberships db) /\
                         um_id um = Procedures.amv_id row /\
                         um_end_date um = Procedures.amv_end_date row /\
                         um_status um = active)
           (Procedures.active_memberships db) /\
    Forall (fun row => d <= Procedures.amv_end_date row)
           (Procedures.active_memberships (call_update_membership_status d db)).
Proof.
  intros d db. split; [apply active_memberships_stem|].
  pose proof (active_memberships_stem (call_update_membership_status d db)) as G.
  eapply Forall_impl; [|exact G]. intros row (um & I & _ & E & A).
  pose proof (expiry_postcondition d (user_memberships db)) as P.
  rewrite Forall_forall in P. simpl in I. rewrite <- E. apply P; assumption.
Qed.



Section RegisterNewMember.
Context (add_months : date -> Z -> date) (CURRENT_DATE : date)
        (for_membership for_payment : Procedures.defaults).

(** X8: register_new_member never completes.  Whatever its arguments and the
    tables, the call ends in an exception (at the latest when the payment is
    inserted, whose column list leaves the NOT NULL column payment_method
    out), so the session finds the database as it was. *)
Theorem register_new_member_always_aborts :
  forall (p_user_id p_membership_id p_trainer_id : option uuid)
         (p_start_date : option date) (db : database),
    (exists msg,
        Procedures.register_new_member add_months CURRENT_DATE
          for_membership for_payment
          p_user_id p_membership_id p_trainer_id p_start_date db
        = Exception msg) /\
    Procedures.call_register_new_member add_months CURRENT_DATE
      for_membership for_payment
      p_user_id p_membership_id p_trainer_id p_start_date db = db.
Proof.
  intros u m t s db.
  assert (E : exists msg,
             Procedures.register_new_member add_months CURRENT_DATE
               for_membership for_payment u m t s db
             = Exception msg).
  { unfold Procedures.register_new_member.
    destruct (Procedures.insert_into_user_memberships _ _ _ _ _ _ db)
      as [db1|msg] eqn:I; [|eauto].
    unfold Procedures.insert_into_payments.
    destruct (option_map m_price _); eauto. }
  split; [exact E|]. destruct E as [msg E].
  unfold Procedures.call_register_new_member. now rewrite E.
Qed.
End RegisterNewMember.

Example register_new_member_runs :
  Procedures.register_new_member Cases.calendar30 100 Cases.seed Cases.seed
    (Some "a2") (Some "gold") (Some "coach") (Some 100) Cases.club
  = Exception "null value in column payment_method of relation payments violates not-null constraint"
  /\ Procedures.register_new_member Cases.calendar30 100 Cases.seed Cases.seed
       (Some "a2") (Some "silver") (Some "coach") (Some 100) Cases.club
     = Exception "null value in column end_date of relation user_memberships violates not-null constraint"
  /\ Procedures.register_new_member Cases.calendar30 100 Cases.seed Cases.seed
       (Some "c1") (Some "gold") (Some "coach") (Some 100) Examples.ten_active
     = Exception "Trainer has reached maximum client capacity".
Proof. repeat split. Qed.

Lemma between_spec (x : date) (a b : option date) :
  is_true (Procedures.sql_between (Some x) a b) = true <->
  exists lo hi, a = Some lo /\ b = Some hi /\ lo <= x <= hi.
Proof.
  unfold Procedures.sql_between, Procedures.sql_le.
  destruct a as [lo|], b as [hi|]; simpl.
  - destruct (Z.leb_spec lo x), (Z.leb_spec x hi); simpl; split;
      try discriminate; try (intros _; exists lo, hi; repeat split; auto; lia);
      intros (l & h & [= <-] & [= <-] & ?); lia.
  - destruct (lo <=? x); simpl; split; try discriminate;
      intros (l & h & _ & D & _); discriminate.
  - destruct (x <=? hi); simpl; split; try discriminate;
      intros (l & h & D & _ & _); discriminate.
  - split; try discriminate. intros (l & h & D & _ & _); discriminate.
Qed.

(** X9: the first generate_payment_summary of a session fills the temporary
    table with exactly the rows of the join: one for each payment dated within
    the two bounds, profile of its user and plan of its membership, carrying
    the name of the profile, the name of the plan and amount, date and status
    of the payment, latest payment_date first (so none when a bound is NULL);
    a later call in the session, whatever its bounds and whatever the tables
    hold by then, leaves the table with the rows of the first call. *)
Theorem payment_summary_kept_from_first_call :
  forall (p_start_date p_end_date : option date) (db : database),
    exists rows,
      Procedures.generate_payment_summary p_start_date p_end_date db None
      = Some rows /\
      StronglySorted (later_first Procedures.ps_payment_date) rows /\
      (forall row,
          In row rows <->
          exists pay p m lo hi,
            In pay (payments db) /\ In p (profiles db) /\
            In m (memberships db) /\
            pay_user_id pay = Some (p_id p) /\
            pay_membership_id pay = Some (m_id m) /\
            p_start_date = Some lo /\ p_end_date = Some hi /\
            lo <= pay_payment_date pay <= hi /\
            row = {| Procedures.ps_full_name := p_full_name p;
                     Procedures.ps_membership_plan := m_name m;
                     Procedures.ps_amount := pay_amount pay;
                     Procedures.ps_payment_date := pay_payment_date pay;
                     Procedures.ps_status := pay_status pay |}) /\
      (forall (start2 end2 : option date) (db2 : database),
          Procedures.generate_payment_summary start2 end2 db2
            (Procedures.generate_payment_summary p_start_date p_end_date db None)
          = Some rows).
Proof.
  intros s e db. eexists. split; [reflexivity|]. split; [apply order_by_sorted|].
  split; [|reflexivity].
  intros row. unfold Procedures.payment_summary_query.
  rewrite order_by_In. split.
  - intros I.
    apply in_flat_map in I. destruct I as (pay & Ipay & I).
    apply in_flat_map in I. destruct I as (p & Ip & I).
    apply in_flat_map in I. destruct I as (m & Im & I).
    destruct (_ && _) eqn:C in I; [|contradiction].
    destruct I as [<-|[]].
    apply andb_true_iff in C. destruct C as [C B].
    apply andb_true_iff in C. destruct C as [U M].
    apply sql_eq_true in U. destruct U as (u & U & [= <-]).
    apply sql_eq_true in M. destruct M as (k & M & [= <-]).
    apply between_spec in B. destruct B as (lo & hi & -> & -> & B).
    exists pay, p, m, lo, hi. repeat split; auto; lia.
  - intros (pay & p & m & lo & hi & Ipay & Ip & Im & U & M & -> & -> & B & ->).
    apply in_flat_map. exists pay. split; [exact Ipay|].
    apply in_flat_map. exists p. split; [exact Ip|].
    apply in_flat_map. exists m. split; [exact Im|].
    replace (is_true (sql_eq (pay_user_id pay) (Some (p_id p)))) with true
      by (symmetry; apply sql_eq_true; eauto).
    replace (is_true (sql_eq (pay_membership_id pay) (Some (m_id m)))) with true
      by (symmetry; apply sql_eq_true; eauto).
    replace (is_true (Procedures.sql_between (Some (pay_payment_date pay))
                        (Some lo) (Some hi))) with true
      by (symmetry; apply between_spec; eauto).
    simpl. auto.
Qed.

Lemma payment_summary_witness :
  exists rows,
    rows = [ {| Procedures.ps_full_name := "Ann";
                Procedures.ps_membership_plan := "Gold";
                Procedures.ps_amount := 50; Procedures.ps_payment_date := 0;
                Procedures.ps_status := completed |};
             {| Procedures.ps_full_name := "Bea";
                Procedures.ps_membership_plan := "Gold";
                Procedures.ps_amount := 50; Procedures.ps_payment_date := 0;
                Procedures.ps_status := pending |} ] /\
    Procedures.generate_payment_summary (Some 20) (Some 30) empty_database
      (Procedures.generate_payment_summary (Some 0) (Some 10) Cases.club None)
    = Some rows /\
    StronglySorted (later_first Procedures.ps_payment_date) rows.
Proof.
  destruct (payment_summary_kept_from_first_call (Some 0) (Some 10) Cases.club)
    as (rows & E & S & _ & K).
  exists rows. split; [|split; [apply K | exact S]].
  injection E as <-. reflexivity.
Defined.

Example payment_summary_runs :
  Procedures.generate_payment_summary (Some 0) (Some 10) Cases.club None
  = Some [ {| Procedures.ps_full_name := "Ann";
              Procedures.ps_membership_plan := "Gold";
              Procedures.ps_amount := 50; Procedures.ps_payment_date := 0;
              Procedures.ps_status := completed |};
           {| Procedures.ps_full_name := "Bea";
              Procedures.ps_membership_plan := "Gold";
              Procedures.ps_amount := 50; Procedures.ps_payment_date := 0;
              Procedures.ps_status := pending |} ]
  /\ Procedures.generate_payment_summary None (Some 10) Cases.club None = Some [].
Proof. split; reflexivity. Qed.

(* ===================================================================== *)
(** * Further properties of the schemas                                    *)
(* ===================================================================== *)

Ltac run_trace :=
  cbn [bind lift emit call ret throw try_catch_finally effects fst snd app
       requests dialogs navigations console_errors flat_map].

Section Parsing.
Context `{Runtime}.

Lemma lookup_absent (props : list (string * value)) (key : string) :
  has_key props key = false -> lookup props key = Undefined.
Proof.
  induction props as [|[k v] props IH]; simpl; [reflexivity|].
  destruct (String.eqb k key); simpl; [discriminate | exact IH].
Qed.

Lemma has_key_output_absent (shape : Zod.z_object)
    (props : list (string * value)) (key : string) :
  has_key props key = false -> has_key (Zod.output_of shape props) key = false.
Proof.
  intros A. unfold Zod.output_of.
  induction shape as [|[k s] shape IH]; simpl; [reflexivity|].
  destruct (has_key props k) eqn:K; simpl; [|exact IH].
  destruct (String.eqb_spec k key) as [->|N]; [congruence | exact IH].
Qed.

Lemma has_key_output_outside (shape : Zod.z_object)
    (props : list (string * value)) (key : string) :
  ~ In key (map fst shape) -> has_key (Zod.output_of shape props) key = false.
Proof.
  unfold Zod.output_of.
  induction shape as [|[k s] shape IH]; simpl; [reflexivity|].
  intros N. destruct (has_key props k); simpl.
  - destruct (String.eqb_spec k key) as [->|_]; [tauto|]. apply IH. tauto.
  - apply IH. tauto.
Qed.

Lemma has_key_output (shape : Zod.z_object) (props : list (string * value))
    (key : string) :
  In key (map fst shape) ->
  has_key (Zod.output_of shape props) key = has_key props key.
Proof.
  unfold Zod.output_of.
  induction shape as [|[k s] shape IH]; simpl; [contradiction|].
  intros I. destruct (String.eqb_spec k key) as [->|N].
  - destruct (has_key props key) eqn:K; simpl.
    + now rewrite String.eqb_refl.
    + now apply (has_key_output_absent shape).
  - destruct I as [E|I]; [contradiction|].
    destruct (has_key props k); simpl; [|now apply IH].
    destruct (String.eqb_spec k key); [contradiction | now apply IH].
Qed.

Lemma lookup_output (shape : Zod.z_object) (props : list (string * value))
    (key : string) :
  In key (map fst shape) ->
  lookup (Zod.output_of shape props) key = lookup props key.
Proof.
  unfold Zod.output_of.
  induction shape as [|[k s] shape IH]; simpl; [contradiction|].
  intros I. destruct (String.eqb_spec k key) as [->|N].
  - destruct (has_key props key) eqn:K; simpl.
    + now rewrite String.eqb_refl.
    + rewrite (lookup_absent props key K). apply lookup_absent.
      now apply (has_key_output_absent shape).
  - destruct I as [E|I]; [contradiction|].
    destruct (has_key props k); simpl; [|now apply IH].
    destruct (String.eqb_spec k key); [contradiction | now apply IH].
Qed.

Lemma output_keys (shape : Zod.z_object) (props : list (string * value)) :
  map fst (Zod.output_of shape props) = filter (has_key props) (map fst shape).
Proof.
  unfold Zod.output_of.
  induction shape as [|[k s] shape IH]; simpl; [reflexivity|].
  destruct (has_key props k); simpl; now rewrite IH.
Qed.

Lemma object_issues_ext (shape : Zod.z_object) (p q : list (string * value)) :
  (forall key, In key (map fst shape) -> lookup p key = lookup q key) ->
  Zod.object_issues shape p = Zod.object_issues shape q.
Proof.
  intros E. unfold Zod.object_issues.
  induction shape as [|[k s] shape IH]; simpl; [reflexivity|].
  rewrite (E k) by (simpl; auto). rewrite IH; [reflexivity|].
  intros key I. apply E. simpl. auto.
Qed.

Lemma output_of_ext (shape : Zod.z_object) (p q : list (string * value)) :
  (forall key, In key (map fst shape) ->
               lookup p key = lookup q key /\ has_key p key = has_key q key) ->
  Zod.output_of shape p = Zod.output_of shape q.
Proof.
  intros E. unfold Zod.output_of.
  induction shape as [|[k s] shape IH]; simpl; [reflexivity|].
  destruct (E k) as [-> ->]; [simpl; auto|]. rewrite IH; [reflexivity|].
  intros key I. apply E. simpl. auto.
Qed.

Lemma parse_ext (shape : Zod.z_object) (p q : list (string * value)) :
  (forall key, In key (map fst shape) ->
               lookup p key = lookup q key /\ has_key p key = has_key q key) ->
  Zod.parse shape (Obj p) = Zod.parse shape (Obj q).
Proof.
  intros E. unfold Zod.parse.
  rewrite (object_issues_ext shape p q (fun key I => proj1 (E key I))),
    (output_of_ext shape p q E).
  reflexivity.
Qed.

Lemma parse_inr (shape : Zod.z_object) (input : value)
    (output : list (string * value)) :
  Zod.parse shape input = inr output ->
  exists props, input = Obj props /\ Zod.object_issues shape props = [] /\
                output = Zod.output_of shape props.
Proof.
  unfold Zod.parse. destruct input; try discriminate.
  destruct (Zod.object_issues shape props) eqn:I; [|discriminate].
  intros [= <-]. eauto.
Qed.

(** X10: for each of the three schemas of the application, the object that
    parse returns holds the keys of the schema that the input has, in the
    order of the schema, and no other key; under each of them it holds the
    value the input has; and parsing it again returns it unchanged. *)
Theorem parse_output_is_stable :
  forall (shape : Zod.z_object) (input : value) (output : list (string * value)),
    In shape [Zod.loginSchema; Zod.registrationSchema; Zod.profileUpdateSchema] ->
    Zod.parse shape input = inr output ->
    exists props,
      input = Obj props /\
      map fst output = filter (has_key props) (map fst shape) /\
      (forall key, In key (map fst shape) -> lookup output key = lookup props key) /\
      (forall key, ~ In key (map fst shape) -> has_key output key = false) /\
      Zod.parse shape (Obj output) = inr output.
Proof.
  intros shape input output _ P. apply parse_inr in P.
  destruct P as (props & -> & I & ->). exists props.
  split; [reflexivity|]. split; [apply output_keys|].
  split; [intros key K; now apply lookup_output|].
  split; [intros key K; now apply has_key_output_outside|].
  rewrite (parse_ext shape (Zod.output_of shape props) props).
  - unfold Zod.parse. now rewrite I.
  - intros key K. split; [now apply lookup_output | now apply has_key_output].
Qed.

(** X11: a key the schema does not declare changes nothing: with it, in front
    or at the end of the object, parse gives the same issues or the same
    output as without it. *)
Theorem parse_ignores_unknown_keys :
  forall (shape : Zod.z_object) (props : list (string * value))
         (key : string) (v : value),
    ~ In key (map fst shape) ->
    Zod.parse shape (Obj ((key, v) :: props)) = Zod.parse shape (Obj props) /\
    Zod.parse shape (Obj (props ++ [(key, v)])) = Zod.parse shape (Obj props).
Proof.
  intros shape props key v N. split; apply parse_ext; intros k I.
  - simpl. destruct (String.eqb_spec key k) as [->|_]; [contradiction|].
    split; reflexivity.
  - induction props as [|[k0 v0] props [IH1 IH2]]; simpl.
    + destruct (String.eqb_spec key k) as [->|_]; [contradiction|].
      split; reflexivity.
    + now rewrite IH1, IH2.
Qed.

(** X12: every object the registration schema accepts is accepted by the
    profile update schema; the output holds, in the order of the schema, the
    profile fields that the object has, each with the value it has in the
    object, and neither email nor password. *)
Theorem registration_input_passes_profile_update :
  forall props : list (string * value),
    Zod.accepts Zod.registrationSchema (Obj props) ->
    exists out,
      Zod.parse Zod.profileUpdateSchema (Obj props) = inr out /\
      map fst out
      = filter (has_key props)
               ["fullName"; "phone"; "height"; "weight"; "emergencyContact";
                "medicalConditions"] /\
      (forall key,
          In key ["fullName"; "phone"; "height"; "weight"; "emergencyContact";
                  "medicalConditions"] ->
          lookup out key = lookup props key) /\
      has_key out "email" = false /\ has_key out "password" = false.
Proof.
  intros props A. apply accepts_no_issues in A.
  assert (B : Zod.accepts Zod.profileUpdateSchema (Obj props)).
  { apply accepts_no_issues. rewrite Forall_forall in *. intros f I.
    apply A. unfold Zod.profileUpdateSchema in I. unfold Zod.registrationSchema.
    cbn [In] in *. intuition (subst; auto 12). }
  destruct B as [out B]. exists out. split; [exact B|].
  apply parse_inr in B. destruct B as (p & [= <-] & _ & ->).
  split; [apply output_keys|].
  split; [intros key K; now apply lookup_output|].
  split; apply has_key_output_outside; simpl; intuition discriminate.
Qed.

Lemma blank_number_accepted (text msg : string) :
  Zod.issues_of (Zod.z_optional (Zod.z_number [Zod.positive msg]))
                (if truthy (Str text) then Num (parseFloat text) else Undefined)
  = [] <->
  blank_or text parseFloat strictly_positive.
Proof.
  unfold blank_or, truthy. destruct (String.eqb_spec text "") as [->|N];
    cbn [negb].
  - split; [auto | reflexivity].
  - change (Num (parseFloat text)) with (supplied Num (Some (parseFloat text))).
    rewrite optional_positive_accepted. split.
    + intros P. right. now apply P.
    + intros [E|P] n [= <-]; [contradiction | exact P].
Qed.

Lemma blank_date_accepted (text : string) :
  Zod.issues_of (Zod.z_optional Zod.z_date)
                (if truthy (Str text) then Date (Date_parse text) else Undefined)
  = [] <->
  blank_or text Date_parse (fun t => t <> None).
Proof.
  unfold blank_or, truthy. destruct (String.eqb_spec text "") as [->|N];
    cbn [negb].
  - split; [auto | reflexivity].
  - simpl. destruct (Date_parse text); split.
    + intros _. right. discriminate.
    + reflexivity.
    + discriminate.
    + intros [E|E]; contradiction.
Qed.

Lemma typed_string_accepted (s : string) :
  Zod.issues_of (Zod.z_optional (Zod.z_string [])) (Str s) = [].
Proof. reflexivity. Qed.

(** X13: the registration page accepts a form exactly when the email passes
    the email test, the password has a length of at least 8 and the full name
    of at least 2 (the length of a JavaScript string, in UTF-16 code units),
    height and weight are blank or read as a strictly positive number, and
    the date of birth is blank or reads as a valid date; phone, emergency
    contact and medical conditions are accepted as typed, blank included. *)
Theorem registration_form_accepted_iff :
  forall formData : RegisterPage.FormData,
    Zod.accepts Zod.registrationSchema (RegisterPage.form_value formData) <->
    email_regex_test (RegisterPage.email formData) = true /\
    (8 <= utf16_length (RegisterPage.password formData))%nat /\
    (2 <= utf16_length (RegisterPage.fullName formData))%nat /\
    blank_or (RegisterPage.height formData) parseFloat strictly_positive /\
    blank_or (RegisterPage.weight formData) parseFloat strictly_positive /\
    blank_or (RegisterPage.dateOfBirth formData) Date_parse (fun t => t <> None).
Proof.
  intros formData. unfold RegisterPage.form_value. rewrite accepts_no_issues.
  unfold Zod.registrationSchema. rewrite !Forall_cons_iff, Forall_nil_iff.
  cbn [fst snd lookup String.eqb Ascii.eqb Bool.eqb].
  rewrite email_accepted, !min_accepted, !typed_string_accepted,
    !blank_number_accepted, blank_date_accepted.
  tauto.
Qed.
End Parsing.

Lemma parse_output_witness :
  exists props,
    Obj (("remember", Bool true) :: Cases.sign_up_object) = Obj props /\
    map fst [("fullName", Str "Alice"); ("height", Num (Fin 180))]
    = filter (has_key props) (map fst Zod.profileUpdateSchema) /\
    (forall key, In key (map fst Zod.profileUpdateSchema) ->
                 lookup [("fullName", Str "Alice"); ("height", Num (Fin 180))] key
                 = lookup props key) /\
    (forall key, ~ In key (map fst Zod.profileUpdateSchema) ->
                 has_key [("fullName", Str "Alice"); ("height", Num (Fin 180))] key
                 = false) /\
    @Zod.parse Scenarios.runtime Zod.profileUpdateSchema
       (Obj [("fullName", Str "Alice"); ("height", Num (Fin 180))])
    = inr [("fullName", Str "Alice"); ("height", Num (Fin 180))].
Proof.
  apply (parse_output_is_stable (H := Scenarios.runtime) Zod.profileUpdateSchema
           (Obj (("remember", Bool true) :: Cases.sign_up_object))).
  - simpl. auto.
  - reflexivity.
Defined.

Lemma parse_unknown_keys_witness :
  @Zod.parse Scenarios.runtime Zod.loginSchema
     (Obj (("remember", Bool true) :: Cases.sign_up_object))
  = @Zod.parse Scenarios.runtime Zod.loginSchema (Obj Cases.sign_up_object)
  /\ @Zod.parse Scenarios.runtime Zod.loginSchema
       (Obj (Cases.sign_up_object ++ [("remember", Bool true)]))
     = @Zod.parse Scenarios.runtime Zod.loginSchema (Obj Cases.sign_up_object).
Proof.
  apply (parse_ignores_unknown_keys (H := Scenarios.runtime) Zod.loginSchema
           Cases.sign_up_object "remember" (Bool true)).
  simpl. intuition discriminate.
Defined.

Lemma profile_update_witness :
  @Zod.accepts Scenarios.runtime Zod.registrationSchema (Obj Cases.sign_up_object)
  /\ @Zod.parse Scenarios.runtime Zod.profileUpdateSchema (Obj Cases.sign_up_object)
     = inr [ ("fullName", Str "Alice"); ("height", Num (Fin 180)) ]
  /\ exists out,
       @Zod.parse Scenarios.runtime Zod.profileUpdateSchema
          (Obj Cases.sign_up_object) = inr out /\
       map fst out
       = filter (has_key Cases.sign_up_object)
                ["fullName"; "phone"; "height"; "weight"; "emergencyContact";
                 "medicalConditions"] /\
       (forall key,
           In key ["fullName"; "phone"; "height"; "weight"; "emergencyContact";
                   "medicalConditions"] ->
           lookup out key = lookup Cases.sign_up_object key) /\
       has_key out "email" = false /\ has_key out "password" = false.
Proof.
  split; [eexists; reflexivity|]. split; [reflexivity|].
  exact (registration_input_passes_profile_update (H := Scenarios.runtime)
           Cases.sign_up_object (ex_intro _ _ eq_refl)).
Defined.

(* ===================================================================== *)
(** * Further properties of the pages                                      *)
(* ===================================================================== *)

Section Pages.
Context `{Runtime} (supabase : Client).

(** X14: a form the schema rejects never reaches the service: the handler
    sends no request, navigates nowhere and shows one error dialog with the
    message of the validation error. *)
Theorem invalid_form_sends_nothing :
  (forall (formData : LoginPage.FormData) (e : exn),
      Zod.parse Zod.loginSchema (LoginPage.form_value formData) = inl e ->
      requests (effects (LoginPage.handleSubmit supabase formData)) = [] /\
      navigations (effects (LoginPage.handleSubmit supabase formData)) = [] /\
      dialogs (effects (LoginPage.handleSubmit supabase formData))
      = [ ("error", "Login Failed",
           or_str (message e) "Please check your credentials and try again.") ]) /\
  (forall (formData : RegisterPage.FormData) (e : exn),
      Zod.parse Zod.registrationSchema (RegisterPage.form_value formData) = inl e ->
      requests (effects (RegisterPage.handleSubmit supabase formData)) = [] /\
      navigations (effects (RegisterPage.handleSubmit supabase formData)) = [] /\
      dialogs (effects (RegisterPage.handleSubmit supabase formData))
      = [ ("error", "Registration Failed",
           or_str (message e) "Please check your information and try again.") ]).
Proof.
  split; intros formData e P.
  - unfold LoginPage.handleSubmit. rewrite P. repeat split.
  - unfold RegisterPage.handleSubmit. rewrite P. repeat split.
Qed.

(** X15: every handler settles: on each of its paths the submit handlers end
    without an uncaught exception and their last effect clears the loading
    flag, and the two dashboards end without an uncaught exception and leave
    the loading screen, whatever the service answers. *)
Theorem handlers_always_settle :
  (forall formData : LoginPage.FormData,
      snd (LoginPage.handleSubmit supabase formData) = inr tt /\
      last (effects (LoginPage.handleSubmit supabase formData)) PreventDefault
      = SetState (LoginPage.setLoading false)) /\
  (forall formData : RegisterPage.FormData,
      snd (RegisterPage.handleSubmit supabase formData) = inr tt /\
      last (effects (RegisterPage.handleSubmit supabase formData)) PreventDefault
      = SetState (RegisterPage.setLoading false)) /\
  (snd (ClientDashboard.fetchUserData supabase) = inr tt /\
   exists p, ClientDashboard.render (ClientDashboard.mounted supabase)
             = ClientDashboard.Page p) /\
  (snd (AdminDashboard.fetchDashboardData supabase) = inr tt /\
   AdminDashboard.loading (AdminDashboard.mounted supabase) = false).
Proof.
  split; [|split; [|split]].
  - intros formData. unfold LoginPage.handleSubmit.
    destruct (Zod.parse Zod.loginSchema (LoginPage.form_value formData)) as [e|v];
      run_trace; [split; reflexivity|].
    destruct (auth_error (signInWithPassword supabase (Obj v))) as [err|];
      run_trace; [split; reflexivity|].
    destruct (auth_user (signInWithPassword supabase (Obj v))) as [u|];
      run_trace; [|split; reflexivity].
    destruct (data (users_role supabase (id u))) as [[[]]|];
      run_trace; split; reflexivity.
  - intros formData. unfold RegisterPage.handleSubmit.
    destruct (Zod.parse Zod.registrationSchema (RegisterPage.form_value formData))
      as [e|v]; run_trace; [split; reflexivity|].
    destruct (auth_error (signUp supabase (RegisterPage.credentials v))) as [err|];
      run_trace; [split; reflexivity|].
    destruct (error (profiles_insert supabase _)) as [err|];
      run_trace; split; reflexivity.
  - unfold ClientDashboard.mounted, ClientDashboard.fetchUserData. run_trace.
    destruct (auth_user (getUser supabase)) as [u|]; run_trace.
    + destruct (data (user_workouts_recent supabase (id u))) as [rows|];
        [destruct (map_throwing ClientDashboard.to_workout rows)|];
        run_trace; (split; [reflexivity | eexists; reflexivity]).
    + split; [reflexivity | eexists; reflexivity].
  - unfold AdminDashboard.mounted, AdminDashboard.fetchDashboardData. run_trace.
    destruct (data (active_memberships_recent supabase)) as [rows|];
      [destruct (map_throwing AdminDashboard.to_member rows)|];
      run_trace; split; reflexivity.
Qed.

(** X16: after a sign-in that answers with a user, the login page looks the
    role up once and navigates once: to /admin when the lookup returns the role
    admin, to /dashboard in every other case, a failed lookup included. *)
Theorem login_navigates_by_role :
  forall (formData : LoginPage.FormData) (validatedData : list (string * value))
         (user : User),
    Zod.parse Zod.loginSchema (LoginPage.form_value formData) = inr validatedData ->
    auth_error (signInWithPassword supabase (Obj validatedData)) = None ->
    auth_user (signInWithPassword supabase (Obj validatedData)) = Some user ->
    requests (effects (LoginPage.handleSubmit supabase formData))
    = [ auth_signInWithPassword (Obj validatedData);
        from_select "users" "role" [eq "id" (Str (id user)); single] ] /\
    (data (users_role supabase (id user)) = Some {| role := Sql.admin |} ->
     navigations (effects (LoginPage.handleSubmit supabase formData)) = ["/admin"]) /\
    (data (users_role supabase (id user)) <> Some {| role := Sql.admin |} ->
     navigations (effects (LoginPage.handleSubmit supabase formData))
     = ["/dashboard"]).
Proof.
  intros formData v user P A U. unfold LoginPage.handleSubmit. rewrite P.
  run_trace. rewrite A, U. run_trace.
  destruct (data (users_role supabase (id user))) as [[[]]|]; run_trace;
    repeat split; intros; congruence.
Qed.

(** X21: for an accepted form and a sign-up that answers without an error, the
    registration page sends exactly three requests: the sign-up with the typed
    email and password, a users row with the id of the new user and the role
    client, and a profiles row with that id and the typed fields, a blank height,
    weight or date of birth being left undefined.  The password is in neither
    row. *)
Theorem registration_sends_what_was_typed :
  forall (formData : RegisterPage.FormData),
    Zod.accepts Zod.registrationSchema (RegisterPage.form_value formData) ->
    auth_error (signUp supabase
                  (Obj [ ("email", Str (RegisterPage.email formData));
                         ("password", Str (RegisterPage.password formData)) ]))
    = None ->
    requests (effects (RegisterPage.handleSubmit supabase formData))
    = [ auth_signUp (Obj [ ("email", Str (RegisterPage.email formData));
                           ("password", Str (RegisterPage.password formData)) ]);
        from_insert "users"
          [ Obj [ ("id", RegisterPage.user_id
                           (signUp supabase
                              (Obj [ ("email", Str (RegisterPage.email formData));
                                     ("password",
                                      Str (RegisterPage.password formData)) ])));
                  ("role", Str "client") ] ];
        from_insert "profiles"
          [ Obj [ ("id", RegisterPage.user_id
                           (signUp supabase
                              (Obj [ ("email", Str (RegisterPage.email formData));
                                     ("password",
                                      Str (RegisterPage.password formData)) ])));
                  ("full_name", Str (RegisterPage.fullName formData));
                  ("email", Str (RegisterPage.email formData));
                  ("phone", Str (RegisterPage.phone formData));
                  ("height", if truthy (Str (RegisterPage.height formData))
                             then Num (parseFloat (RegisterPage.height formData))
                             else Undefined);
                  ("weight", if truthy (Str (RegisterPage.weight formData))
                             then Num (parseFloat (RegisterPage.weight formData))
                             else Undefined);
                  ("date_of_birth",
                   if truthy (Str (RegisterPage.dateOfBirth formData))
                   then Date (Date_parse (RegisterPage.dateOfBirth formData))
                   else Undefined);
                  ("emergency_contact",
                   Str (RegisterPage.emergencyContact formData));
                  ("medical_conditions",
                   Str (RegisterPage.medicalConditions formData)) ] ] ].
Proof.
  intros formData [v P] A.
  assert (V : v = map (fun '(key, _) =>
                         (key, lookup
                                 match RegisterPage.form_value formData with
                                 | Obj props => props
                                 | _ => []
                                 end key))
                      Zod.registrationSchema).
  { unfold RegisterPage.form_value in *. unfold Zod.parse in P.
    destruct (Zod.object_issues _ _); [|discriminate]. now injection P as <-. }
  unfold RegisterPage.handleSubmit. rewrite P. run_trace. subst v.
  change (RegisterPage.credentials _)
    with (Obj [ ("email", Str (RegisterPage.email formData));
                ("password", Str (RegisterPage.password formData)) ]) in *.
  rewrite A. run_trace.
  destruct (error (profiles_insert supabase _)); reflexivity.
Qed.
End Pages.

Lemma invalid_form_witness :
  requests (effects (@LoginPage.handleSubmit Scenarios.runtime
                       (Scenarios.service (Some Scenarios.alice) None None)
                       Cases.short_password)) = []
  /\ dialogs (effects (@LoginPage.handleSubmit Scenarios.runtime
                         (Scenarios.service (Some Scenarios.alice) None None)
                         Cases.short_password))
     = [ ("error", "Login Failed", "[Password must be at least 8 characters]") ]
  /\ requests (effects (@RegisterPage.handleSubmit Scenarios.runtime
                          (Scenarios.service (Some Scenarios.alice) None None)
                          Cases.nameless)) = []
  /\ dialogs (effects (@RegisterPage.handleSubmit Scenarios.runtime
                         (Scenarios.service (Some Scenarios.alice) None None)
                         Cases.nameless))
     = [ ("error", "Registration Failed",
          "[Full name must be at least 2 characters]") ].
Proof.
  pose proof (proj1 (invalid_form_sends_nothing (H := Scenarios.runtime)
                       (Scenarios.service (Some Scenarios.alice) None None))
                    Cases.short_password _ eq_refl) as L.
  pose proof (proj2 (invalid_form_sends_nothing (H := Scenarios.runtime)
                       (Scenarios.service (Some Scenarios.alice) None None))
                    Cases.nameless _ eq_refl) as R.
  split; [exact (proj1 L)|]. split; [exact (proj2 (proj2 L))|].
  split; [exact (proj1 R) | exact (proj2 (proj2 R))].
Defined.

Lemma login_navigates_witness :
  navigations (effects (@LoginPage.handleSubmit Scenarios.runtime
                          (Cases.with_role
                             (Scenarios.service (Some Scenarios.alice) None None)
                             Sql.admin)
                          Scenarios.login_form))
  = ["/admin"]
  /\ navigations (effects (@LoginPage.handleSubmit Scenarios.runtime
                             (Scenarios.service (Some Scenarios.alice) None None)
                             Scenarios.login_form))
     = ["/dashboard"].
Proof.
  split.
  - apply (login_navigates_by_role (H := Scenarios.runtime)
             (Cases.with_role (Scenarios.service (Some Scenarios.alice) None None)
                              Sql.admin)
             Scenarios.login_form _ Scenarios.alice eq_refl eq_refl eq_refl).
    reflexivity.
  - apply (login_navigates_by_role (H := Scenarios.runtime)
             (Scenarios.service (Some Scenarios.alice) None None)
             Scenarios.login_form _ Scenarios.alice eq_refl eq_refl eq_refl).
    discriminate.
Defined.

Lemma registration_sends_witness :
  requests (effects (@RegisterPage.handleSubmit Scenarios.runtime
                       (Scenarios.service (Some Scenarios.alice) None None)
                       Scenarios.registration_form))
  = [ auth_signUp (Obj [ ("email", Str "alice@fithub.test");
                         ("password", Str "correct horse") ]);
      from_insert "users" [ Obj [("id", Str "alice"); ("role", Str "client")] ];
      from_insert "profiles"
        [ Obj [ ("id", Str "alice"); ("full_name", Str "Alice");
                ("email", Str "alice@fithub.test"); ("phone", Str "");
                ("height", Num (Fin 180)); ("weight", Undefined);
                ("date_of_birth", Date (Some 631152000000));
                ("emergency_contact", Str ""); ("medical_conditions", Str "") ] ] ].
Proof.
  exact (registration_sends_what_was_typed (H := Scenarios.runtime)
           (Scenarios.service (Some Scenarios.alice) None None)
           Scenarios.registration_form (ex_intro _ _ eq_refl) eq_refl).
Defined.

(** X17: when nobody is signed in the client dashboard asks for the user and
    for nothing else, and renders the page of a member without membership,
    trainer or workouts. *)
Theorem signed_out_dashboard_asks_nothing :
  forall supabase : Client,
    auth_user (getUser supabase) = None ->
    requests (effects (ClientDashboard.fetchUserData supabase)) = [auth_getUser] /\
    ClientDashboard.render (ClientDashboard.mounted supabase)
    = ClientDashboard.Page
        {| ClientDashboard.membership_text := "No active membership";
           ClientDashboard.expires := None;
           ClientDashboard.trainer_text := "No trainer assigned";
           ClientDashboard.next_payment := None;
           ClientDashboard.workouts_count := 0;
           ClientDashboard.recent_workouts := [] |}.
Proof.
  intros supabase U.
  unfold ClientDashboard.mounted, ClientDashboard.fetchUserData. run_trace.
  rewrite U. split; reflexivity.
Qed.

Lemma signed_out_dashboard_witness :
  auth_user (getUser (Scenarios.service None None None)) = None
  /\ requests (effects (ClientDashboard.fetchUserData
                          (Scenarios.service None None None)))
     = [auth_getUser].
Proof.
  split; [reflexivity|].
  exact (proj1 (signed_out_dashboard_asks_nothing
                  (Scenarios.service None None None) eq_refl)).
Defined.

Lemma map_throwing_orphan (rows : list user_workouts_sel) :
  Exists (fun w => Supabase.workouts w = None) rows ->
  map_throwing ClientDashboard.to_workout rows
  = inl (TypeError "Cannot read properties of null (reading 'name')").
Proof.
  induction 1 as [w rows E | w rows E IH]; simpl.
  - unfold ClientDashboard.to_workout. now rewrite E.
  - destruct (ClientDashboard.to_workout w) as [e|b] eqn:T.
    + unfold ClientDashboard.to_workout in T.
      destruct (Supabase.workouts w); congruence.
    + now rewrite IH.
Qed.

(** X18: one assignment whose workout is missing hides them all: when any row
    of the workouts answer has no embedded workout, the dashboard keeps the
    profile and the membership it fetched, shows no workout at all, logs the
    TypeError to the console and opens no dialog. *)
Theorem one_orphan_assignment_hides_all :
  forall (supabase : Client) (user : User) (rows : list user_workouts_sel),
    auth_user (getUser supabase) = Some user ->
    data (user_workouts_recent supabase (id user)) = Some rows ->
    Exists (fun w => Supabase.workouts w = None) rows ->
    ClientDashboard.workouts (ClientDashboard.mounted supabase) = [] /\
    ClientDashboard.profile (ClientDashboard.mounted supabase)
    = data (profiles_single supabase (id user)) /\
    ClientDashboard.membership (ClientDashboard.mounted supabase)
    = data (active_memberships_single supabase (id user)) /\
    console_errors (effects (ClientDashboard.fetchUserData supabase))
    = [TypeError "Cannot read properties of null (reading 'name')"] /\
    dialogs (effects (ClientDashboard.fetchUserData supabase)) = [].
Proof.
  intros supabase user rows U D O.
  unfold ClientDashboard.mounted, ClientDashboard.fetchUserData. run_trace.
  rewrite U. run_trace. rewrite D. rewrite (map_throwing_orphan rows O).
  run_trace. repeat split.
Qed.

Lemma one_orphan_witness :
  Exists (fun w => Supabase.workouts w = None) Cases.orphan_rows
  /\ ClientDashboard.workouts
       (ClientDashboard.mounted
          (Cases.with_workouts (Scenarios.service (Some Scenarios.alice) None None)
                               Cases.orphan_rows))
     = [].
Proof.
  assert (O : Exists (fun w => Supabase.workouts w = None) Cases.orphan_rows).
  { apply Exists_cons_tl. apply Exists_cons_hd. reflexivity. }
  split; [exact O|].
  exact (proj1 (one_orphan_assignment_hides_all
                  (Cases.with_workouts
                     (Scenarios.service (Some Scenarios.alice) None None)
                     Cases.orphan_rows)
                  Scenarios.alice Cases.orphan_rows eq_refl eq_refl O)).
Defined.

Section Limit.
Context {A : Type} (key : A -> Z).

Lemma insert_ordered_perm (asc : bool) (x : A) (l : list A) :
  Permutation (Postgrest.insert_ordered key asc x l) (x :: l).
Proof.
  induction l as [|y l IH]; simpl; [reflexivity|].
  destruct (Postgrest.before key asc x y); [reflexivity|].
  rewrite IH. apply perm_swap.
Qed.

Lemma order_by_perm (asc : bool) (l : list A) :
  Permutation (Postgrest.order_by key asc l) l.
Proof.
  induction l as [|x l IH]; simpl; [reflexivity|].
  rewrite insert_ordered_perm. now constructor.
Qed.

Lemma sorted_split (n : nat) (l : list A) :
  StronglySorted (later_first key) l ->
  forall q r, In q (firstn n l) -> In r (skipn n l) -> key r <= key q.
Proof.
  intros S. revert n. induction S as [|x l S IH F]; intros n q r Iq Ir.
  - rewrite firstn_nil in Iq. contradiction.
  - destruct n as [|n]; simpl in *; [contradiction|].
    destruct Iq as [<-|Iq].
    + rewrite Forall_forall in F. apply F.
      rewrite <- (firstn_skipn n l). apply in_or_app. now right.
    + eapply IH; eauto.
Qed.
End Limit.

Lemma map_throwing_all {A B C} (h : A -> B) (f : B -> exn + C) (g : A -> C)
    (l : list A) :
  Forall (fun a => f (h a) = inr (g a)) l ->
  map_throwing f (map h l) = inr (map g l).
Proof.
  induction 1 as [|a l E F IH]; simpl; [reflexivity|]. now rewrite E, IH.
Qed.

(** X19: when each of the assignments the query returns has its workout, the
    client dashboard shows them all, in the order of the query and with their
    labels; their number is the smaller of 5 and the number of assignments of
    the user; and they are the latest: the assignments of the user are those
    shown together with others, none of which was assigned later than any one
    shown. *)
Theorem client_dashboard_shows_the_latest_five :
  forall (base : Client) (db : database) (user : User),
    auth_user (getUser base) = Some user ->
    Forall (fun r => Postgrest.embed_workout db r <> None)
           (Postgrest.user_workouts_query db (id user)) ->
    exists p : ClientDashboard.page,
      ClientDashboard.render
        (ClientDashboard.mounted (Postgrest.on_database base db))
      = ClientDashboard.Page p /\
      map (fun i => (ClientDashboard.item_assigned i, ClientDashboard.item_label i))
          (ClientDashboard.recent_workouts p)
      = map (fun r => (uw_assigned_date r,
                       match uw_completed_date r with
                       | Some _ => "Completed"
                       | None => "Pending"
                       end))
            (Postgrest.user_workouts_query db (id user)) /\
      ClientDashboard.workouts_count p
      = Nat.min 5 (List.length (assignments_of db (id user))) /\
      exists rest,
        Permutation (assignments_of db (id user))
                    (Postgrest.user_workouts_query db (id user) ++ rest) /\
        forall q r, In q (Postgrest.user_workouts_query db (id user)) ->
                    In r rest -> uw_assigned_date r <= uw_assigned_date q.
Proof.
  intros base db user U W.
  set (g := fun r : user_workouts_row =>
              {| ClientDashboard.wk_name :=
                   match Postgrest.embed_workout db r with
                   | Some e => Supabase.w_name e
                   | None => ""
                   end;
                 ClientDashboard.wk_assigned_date := uw_assigned_date r;
                 ClientDashboard.wk_completed_date := uw_completed_date r;
                 ClientDashboard.wk_exercises :=
                   match Postgrest.embed_workout db r with
                   | Some e => Supabase.w_exercises e
                   | None => ""
                   end |}).
  assert (M : map_throwing ClientDashboard.to_workout
                (map (fun r => {| Supabase.workouts := Postgrest.embed_workout db r;
                                  assigned_date := uw_assigned_date r;
                                  completed_date := uw_completed_date r |})
                     (Postgrest.user_workouts_query db (id user)))
              = inr (map g (Postgrest.user_workouts_query db (id user)))).
  { apply map_throwing_all. eapply Forall_impl; [|exact W]. intros r E.
    cbv beta in E. unfold ClientDashboard.to_workout, g. simpl.
    destruct (Postgrest.embed_workout db r); [reflexivity | congruence]. }
  unfold ClientDashboard.mounted, ClientDashboard.fetchUserData. run_trace.
  change (getUser (Postgrest.on_database base db)) with (getUser base).
  rewrite U. run_trace.
  change (data (user_workouts_recent (Postgrest.on_database base db) (id user)))
    with (Some (map (fun r => {| Supabase.workouts := Postgrest.embed_workout db r;
                                 assigned_date := uw_assigned_date r;
                                 completed_date := uw_completed_date r |})
                    (Postgrest.user_workouts_query db (id user)))).
  run_trace. rewrite M. run_trace. simpl. eexists. split; [reflexivity|]. simpl.
  split; [|split].
  - rewrite !map_map. apply map_ext. intros r. reflexivity.
  - rewrite length_map. unfold Postgrest.user_workouts_query.
    rewrite length_firstn.
    rewrite (Permutation_length (order_by_perm uw_assigned_date false _)).
    reflexivity.
  - exists (skipn 5 (Postgrest.order_by uw_assigned_date false
                       (assignments_of db (id user)))).
    split.
    + unfold Postgrest.user_workouts_query. fold (assignments_of db (id user)).
      rewrite firstn_skipn. symmetry. apply order_by_perm.
    + unfold Postgrest.user_workouts_query. fold (assignments_of db (id user)).
      apply sorted_split. apply order_by_sorted.
Qed.

Lemma latest_five_witness :
  List.length (assignments_of Scenarios.gym "alice") = 6%nat
  /\ exists p : ClientDashboard.page,
       ClientDashboard.render
         (ClientDashboard.mounted
            (Postgrest.on_database
               (Scenarios.service (Some Scenarios.alice) None None)
               Scenarios.gym))
       = ClientDashboard.Page p /\
       map (fun i => (ClientDashboard.item_assigned i, ClientDashboard.item_label i))
           (ClientDashboard.recent_workouts p)
       = map (fun r => (uw_assigned_date r,
                        match uw_completed_date r with
                        | Some _ => "Completed"
                        | None => "Pending"
                        end))
             (Postgrest.user_workouts_query Scenarios.gym "alice") /\
       ClientDashboard.workouts_count p
       = Nat.min 5 (List.length (assignments_of Scenarios.gym "alice")) /\
       exists rest,
         Permutation (assignments_of Scenarios.gym "alice")
                     (Postgrest.user_workouts_query Scenarios.gym "alice" ++ rest) /\
         forall q r, In q (Postgrest.user_workouts_query Scenarios.gym "alice") ->
                     In r rest -> uw_assigned_date r <= uw_assigned_date q.
Proof.
  split; [reflexivity|].
  apply (client_dashboard_shows_the_latest_five
           (Scenarios.service (Some Scenarios.alice) None None)
           Scenarios.gym Scenarios.alice eq_refl).
  vm_compute. repeat constructor; discriminate.
Defined.

Lemma map_throwing_member_orphan (rows : list active_memberships_sel) :
  Exists (fun m => am_profiles m = None) rows ->
  map_throwing AdminDashboard.to_member rows
  = inl (TypeError "Cannot read properties of undefined (reading 'full_name')").
Proof.
  induction 1 as [m rows E | m rows E IH]; simpl.
  - unfold AdminDashboard.to_member. now rewrite E.
  - destruct (AdminDashboard.to_member m) as [e|b] eqn:T.
    + unfold AdminDashboard.to_member in T.
      destruct (am_profiles m); congruence.
    + now rewrite IH.
Qed.

(** X22: the admin dashboard sets its statistics before it maps the recent
    members, so when a row of that answer has no embedded profile the members
    table stays empty and the TypeError is logged, while the statistics are
    the ones computed from the other answers and no dialog opens. *)
Theorem admin_members_all_or_nothing :
  forall (supabase : Client) (rows : list active_memberships_sel),
    data (active_memberships_recent supabase) = Some rows ->
    Exists (fun m => am_profiles m = None) rows ->
    AdminDashboard.members (AdminDashboard.mounted supabase) = [] /\
    AdminDashboard.totalRevenue (AdminDashboard.stats (AdminDashboard.mounted supabase))
    = or (AdminDashboard.reduce_amounts (data (payments_completed_amounts supabase)))
         zero /\
    console_errors (effects (AdminDashboard.fetchDashboardData supabase))
    = [TypeError "Cannot read properties of undefined (reading 'full_name')"] /\
    dialogs (effects (AdminDashboard.fetchDashboardData supabase)) = [].
Proof.
  intros supabase rows D O.
  unfold AdminDashboard.mounted, AdminDashboard.fetchDashboardData. run_trace.
  rewrite D, (map_throwing_member_orphan rows O). run_trace. repeat split.
Qed.

Lemma admin_members_witness :
  Exists (fun m => am_profiles m = None) Cases.unnamed_member
  /\ AdminDashboard.members
       (AdminDashboard.mounted
          (Cases.with_members (Scenarios.service None None None)
                              Cases.unnamed_member))
     = [].
Proof.
  assert (O : Exists (fun m => am_profiles m = None) Cases.unnamed_member).
  { apply Exists_cons_tl. apply Exists_cons_hd. reflexivity. }
  split; [exact O|].
  exact (proj1 (admin_members_all_or_nothing
                  (Cases.with_members (Scenarios.service None None None)
                                      Cases.unnamed_member)
                  Cases.unnamed_member eq_refl O)).
Defined.

Lemma insert_keeps_bound (NEW : user_memberships_row) (db db' : database)
    (t : uuid) :
  insert_user_membership NEW db = Ok db' ->
  active_of t (user_memberships db) <= 10 ->
  active_of t (user_memberships db') <= 10.
Proof.
  unfold active_of, insert_user_membership, check_trainer_availability.
  destruct (Z.leb_spec 10 (count_active (um_trainer_id NEW) (user_memberships db)))
    as [G|G]; [discriminate|].
  intros O B. injection O as <-. simpl. rewrite count_active_app.
  unfold count_active at 2. simpl.
  destruct (trainer_where (Some t) NEW) eqn:W; simpl; [|lia].
  apply trainer_where_same in W. rewrite W in G. lia.
Qed.

Lemma exec_keeps_bound (s : statement) (db : database) (t : uuid) :
  leaves_payments_as_inserted s = true ->
  active_of t (user_memberships db) <= 10 ->
  active_of t (user_memberships (exec db s)) <= 10.
Proof.
  destruct s as [NEW | NEW | w f | d]; simpl; intros L B.
  - destruct (insert_user_membership NEW db) as [db'|msg] eqn:I; [|exact B].
    eapply insert_keeps_bound; eauto.
  - exact B.
  - discriminate.
  - unfold active_of in *.
    pose proof (expiry_count_le d (Some t) (user_memberships db)). lia.
Qed.

(** X23: as long as no payment is updated, the capacity limit holds in every
    state a session reaches: after any sequence of membership inserts, payment
    inserts and runs of the expiry procedure, no trainer has more than 10
    active memberships. *)
Theorem capacity_holds_without_payment_updates :
  forall (ss : list statement) (t : uuid),
    forallb leaves_payments_as_inserted ss = true ->
    active_of t (user_memberships (run ss)) <= 10.
Proof.
  intros ss t. unfold run.
  assert (G : forall db, active_of t (user_memberships db) <= 10 ->
                         forallb leaves_payments_as_inserted ss = true ->
                         active_of t (user_memberships (fold_left exec ss db)) <= 10).
  { induction ss as [|s ss IH]; intros db B L; simpl; [exact B|].
    simpl in L. apply andb_true_iff in L. destruct L as [L1 L2].
    apply IH; [|exact L2]. now apply exec_keeps_bound. }
  apply G. vm_compute. discriminate.
Qed.

Lemma capacity_holds_witness :
  forallb leaves_payments_as_inserted Cases.busy_season = true
  /\ active_of "coach" (user_memberships (run Cases.busy_season)) = 10
  /\ active_of "coach" (user_memberships (run Cases.busy_season)) <= 10.
Proof.
  split; [reflexivity|]. split; [reflexivity|].
  exact (capacity_holds_without_payment_updates Cases.busy_season "coach" eq_refl).
Defined.
